(** * Citi Bike analytics dashboard: a shallow embedding of [streamlit_app.py]

    The script is one top-to-bottom Streamlit render: it reads the sidebar
    widgets, builds a SQL predicate by string interpolation, sends a fixed
    catalogue of queries to BigQuery through [query_bq], and hands tables,
    metrics and insight bullets to Streamlit.

    The embedding keeps that shape.  Python scalars are a small value type,
    Python floats are the binary64 numbers of [PrimFloat], exceptions are an
    explicit result type, the backend is a function from query text to a
    response, and the Streamlit calls are events appended to a sink. *)

From Stdlib Require Import ZArith String Ascii List Bool Lia DecimalString.
From Stdlib Require Import DecimalZ DecimalPos Sorting.Sorted Sorting.Permutation.
From Stdlib Require Import Floats.PrimFloat Floats.SpecFloat Floats.FloatOps.
Import ListNotations.
Open Scope list_scope.
Open Scope string_scope.
Open Scope Z_scope.
Set Warnings "-register-all".

(** ** Python values, exceptions and built-ins *)

(** [datetime.date]: what [st.date_input] returns. *)
Record date := mkdate { year : Z; month : Z; day : Z }.

(** The scalars a DataFrame cell can hold (int, float, str, date, None), the
    STRUCT of the [top_bike] column and the ARRAY<STRING> of the
    distinct-values query. *)
Inductive pyval :=
| VNone
| VInt (n : Z)
| VFloat (f : float)
| VStr (s : string)
| VDate (d : date)
| VStruct (fields : list (string * pyval))
| VArray (items : list string).

Inductive exn :=
| TypeError
| ValueError
| OverflowError
| IndexError
| KeyError
| BackendError.

(** A Python expression either yields a value or raises. *)
Inductive res (A : Type) :=
| Ok (a : A)
| Raise (e : exn).
Arguments Ok {A} a.
Arguments Raise {A} e.

Definition rbind {A B} (m : res A) (k : A -> res B) : res B :=
  match m with
  | Ok a => k a
  | Raise e => Raise e
  end.

Notation "x <- m ;; k" := (rbind m (fun x => k))
  (at level 61, m at next level, right associativity).

(** [try: body  except Exception: handler]. *)
Definition try_except {A} (body handler : res A) : res A :=
  match body with
  | Ok a => Ok a
  | Raise _ => handler
  end.

(** The parts of the Python run time that the script relies on and that are
    not modelled here: parsing a string as an int or a float, and the [repr]
    of finite floats, dicts and arrays. *)
Record builtins := {
  int_of_str : string -> option Z;
  float_of_str : string -> option float;
  repr_other : pyval -> string
}.

(** *** Floats *)

(** [float(n)] for a Python int: round to nearest even; [OverflowError] when
    the int is too large. *)
Definition float_of_Z (n : Z) : float :=
  SF2Prim (binary_normalize prec emax n 0 false).

Definition float_of_int (n : Z) : res float :=
  let f := float_of_Z n in
  match Prim2SF f with
  | S754_infinity _ => Raise OverflowError
  | _ => Ok f
  end.

(** [int(f)] for a Python float: truncation toward zero. *)
Definition int_of_float (f : float) : res Z :=
  match Prim2SF f with
  | S754_nan => Raise ValueError
  | S754_infinity _ => Raise OverflowError
  | S754_zero _ => Ok 0
  | S754_finite s m e =>
      let a := if 0 <=? e then Zpos m * 2 ^ e else Zpos m / 2 ^ (- e) in
      Ok (if s then - a else a)
  end.

(** *** Number formatting *)

Definition digits (n : Z) : string := NilZero.string_of_int (Z.to_int n).

(** The thousands separator of the [,] format option, on a digit string. *)
Fixpoint group3 (s : string) : string :=
  match s with
  | EmptyString => EmptyString
  | String c r =>
      let n := String.length r in
      String c (if (negb (Nat.eqb n 0) && Nat.eqb (Nat.modulo n 3) 0)%bool
                then "," ++ group3 r else group3 r)
  end.

(** [f"{n:,}"] for an int. *)
Definition format_comma (n : Z) : string :=
  if n <? 0 then "-" ++ group3 (digits (- n)) else group3 (digits n).

Definition round_half_even (num den : Z) : Z :=
  let q := num / den in
  match (2 * (num mod den)) ?= den with
  | Lt => q
  | Gt => q + 1
  | Eq => if Z.even q then q else q + 1
  end.

Definition sign_str (s : bool) : string := if s then "-" else "".

(** [f"{x:.1f}"] for a float: the exact binary value, correctly rounded to
    one decimal. *)
Definition format_1f (f : float) : string :=
  match Prim2SF f with
  | S754_nan => "nan"
  | S754_infinity s => sign_str s ++ "inf"
  | S754_zero s => sign_str s ++ "0.0"
  | S754_finite s m e =>
      let t := if 0 <=? e then Zpos m * 10 * 2 ^ e
               else round_half_even (Zpos m * 10) (2 ^ (- e)) in
      sign_str s ++ digits (t / 10) ++ "." ++ digits (t mod 10)
  end.

(** *** Dates *)

Definition digit (d : Z) : ascii := ascii_of_nat (48 + Z.to_nat (d mod 10)).

Definition pad2 (n : Z) : string :=
  String (digit (n / 10)) (String (digit n) "").

Definition pad4 (n : Z) : string :=
  String (digit (n / 1000)) (String (digit (n / 100)) (pad2 n)).

(** [str(d)], that is [d.isoformat()]: [YYYY-MM-DD]. *)
Definition isoformat (d : date) : string :=
  pad4 (year d) ++ "-" ++ pad2 (month d) ++ "-" ++ pad2 (day d).

Definition is_leap (y : Z) : bool :=
  ((y mod 4 =? 0) && (negb (y mod 100 =? 0) || (y mod 400 =? 0)))%bool.

Definition days_in_month (y m : Z) : Z :=
  if m =? 2 then (if is_leap y then 29 else 28)
  else if ((m =? 4) || (m =? 6) || (m =? 9) || (m =? 11))%bool then 30
  else 31.

Definition days_before_year (y : Z) : Z :=
  let p := y - 1 in p * 365 + p / 4 - p / 100 + p / 400.

Definition days_before_month (y m : Z) : Z :=
  fold_right Z.add 0
    (map (days_in_month y) (map Z.of_nat (seq 1 (Z.to_nat (m - 1))))).

Definition toordinal (d : date) : Z :=
  days_before_year (year d) + days_before_month (year d) (month d) + day d.

(** [a > b] on dates. *)
Definition date_gt (a b : date) : bool :=
  ((year b <? year a)
   || ((year a =? year b)
       && ((month b <? month a)
           || ((month a =? month b) && (day b <? day a)))))%bool.

(** ** Sidebar filters *)

Inductive Grain := Daily | Monthly.

(** The values of the script's filter variables once the sidebar has run. *)
Record FilterSpec := mkFilterSpec {
  start_date : date;
  end_date : date;
  rider_filter : list string;
  bike_filter : list string;
  grain : Grain
}.

(** What the user did in the sidebar: [None] is a widget left at its
    default. *)
Record sidebar := mkSidebar {
  ui_start : option date;
  ui_end : option date;
  ui_grain : option Grain;
  ui_riders : option (list string);
  ui_bikes : option (list string)
}.

Definition default_start : date := mkdate 2024 1 1.
Definition default_end : date := mkdate 2024 12 31.

(** [(pd.to_datetime(end_date) - pd.to_datetime(start_date)).days] *)
Definition days_between (s e : date) : Z := toordinal e - toordinal s.

Definition days_selected (fs : FilterSpec) : Z :=
  days_between (start_date fs) (end_date fs).

Definition default_grain (days : Z) : Grain :=
  if 45 <? days then Monthly else Daily.

Definition or_default {A} (choice : option A) (default : A) : A :=
  match choice with
  | Some a => a
  | None => default
  end.

(** The filter variables, from the sidebar state and the option lists that
    [get_distinct_values] returned. *)
Definition read_filters (ui : sidebar) (rider_types bike_types : list string)
  : FilterSpec :=
  let s := or_default (ui_start ui) default_start in
  let e := or_default (ui_end ui) default_end in
  {| start_date := s;
     end_date := e;
     rider_filter := or_default (ui_riders ui) rider_types;
     bike_filter := or_default (ui_bikes ui) bike_types;
     grain := or_default (ui_grain ui) (default_grain (days_between s e)) |}.

(** ** Predicate builder (lines 100-111) *)

Definition quote_sql (x : string) : string := "'" ++ x ++ "'".

(** [", ".join([f"'{x}'" for x in xs])] *)
Definition in_list (xs : list string) : string :=
  String.concat ", " (map quote_sql xs).

Definition date_clause (fs : FilterSpec) : string :=
  "ride_date BETWEEN DATE('" ++ isoformat (start_date fs)
  ++ "') AND DATE('" ++ isoformat (end_date fs) ++ "')".

Definition rider_clause (xs : list string) : string :=
  "member_casual IN (" ++ in_list xs ++ ")".

Definition bike_clause (xs : list string) : string :=
  "rideable_type IN (" ++ in_list xs ++ ")".

(** A Python list is truthy when it is not empty. *)
Definition truthy {A} (xs : list A) : bool :=
  match xs with
  | [] => false
  | _ :: _ => true
  end.

Definition where_clauses (fs : FilterSpec) : list string :=
  ([date_clause fs]
   ++ (if truthy (rider_filter fs) then [rider_clause (rider_filter fs)] else [])
   ++ (if truthy (bike_filter fs) then [bike_clause (bike_filter fs)] else []))%list.

Definition where_sql (fs : FilterSpec) : string :=
  String.concat " AND " (where_clauses fs).

(** ** Query catalogue *)

Definition PROJECT : string := "dezoomcamp-citibike-free".
Definition TABLE : string := "`" ++ PROJECT ++ ".marts.fact_trips`".

(** line 75 *)
Definition sql_distinct : string :=
  "
    SELECT
      ARRAY_AGG(DISTINCT member_casual IGNORE NULLS) AS rider_types,
      ARRAY_AGG(DISTINCT rideable_type IGNORE NULLS) AS bike_types
    FROM "
  ++ TABLE
  ++ "
    ".

(** line 116 *)
Definition sql_kpis (fs : FilterSpec) : string :=
  "
SELECT
  COUNT(*) AS trips,
  AVG(ride_duration_sec) AS avg_duration_sec,
  SAFE_DIVIDE(SUM(CASE WHEN member_casual = 'member' THEN 1 ELSE 0 END), COUNT(*)) AS member_share,
  SAFE_DIVIDE(SUM(CASE WHEN LOWER(rideable_type) LIKE '%electric%' THEN 1 ELSE 0 END), COUNT(*)) AS electric_share,
  (SELECT AS STRUCT rideable_type, COUNT(*) c
   FROM "
  ++ TABLE
  ++ "
   WHERE "
  ++ where_sql fs
  ++ "
   GROUP BY rideable_type
   ORDER BY c DESC
   LIMIT 1) AS top_bike
FROM "
  ++ TABLE
  ++ "
WHERE "
  ++ where_sql fs
  ++ "
".

(** line 145 *)
Definition sql_mom (fs : FilterSpec) : string :=
  "
WITH monthly AS (
  SELECT
    DATE_TRUNC(ride_date, MONTH) AS month,
    COUNT(*) AS trips
  FROM "
  ++ TABLE
  ++ "
  WHERE ride_date BETWEEN DATE('"
  ++ isoformat (start_date fs)
  ++ "') AND DATE('"
  ++ isoformat (end_date fs)
  ++ "')
  GROUP BY month
),
last_two AS (
  SELECT * FROM monthly ORDER BY month DESC LIMIT 2
)
SELECT
  (SELECT month FROM last_two ORDER BY month DESC LIMIT 1) AS curr_month,
  (SELECT trips FROM last_two ORDER BY month DESC LIMIT 1) AS curr_trips,
  (SELECT month FROM last_two ORDER BY month DESC LIMIT 1 OFFSET 1) AS prev_month,
  (SELECT trips FROM last_two ORDER BY month DESC LIMIT 1 OFFSET 1) AS prev_trips
".

(** line 189 *)
Definition sql_cat (fs : FilterSpec) : string :=
  "
    SELECT
      member_casual,
      COUNT(*) AS trip_count
    FROM "
  ++ TABLE
  ++ "
    WHERE "
  ++ where_sql fs
  ++ "
    GROUP BY member_casual
    ORDER BY trip_count DESC
    ".

(** line 213 *)
Definition sql_ts_daily (fs : FilterSpec) : string :=
  "
        SELECT
          ride_date AS period,
          COUNT(*) AS trip_count
        FROM "
  ++ TABLE
  ++ "
        WHERE "
  ++ where_sql fs
  ++ "
        GROUP BY period
        ORDER BY period
        ".

(** line 223 *)
Definition sql_ts_monthly (fs : FilterSpec) : string :=
  "
        SELECT
          DATE_TRUNC(ride_date, MONTH) AS period,
          COUNT(*) AS trip_count
        FROM "
  ++ TABLE
  ++ "
        WHERE "
  ++ where_sql fs
  ++ "
        GROUP BY period
        ORDER BY period
        ".

(** line 252 *)
Definition sql_mix (fs : FilterSpec) : string :=
  "
SELECT
  DATE_TRUNC(ride_date, MONTH) AS month,
  rideable_type,
  COUNT(*) AS trip_count
FROM "
  ++ TABLE
  ++ "
WHERE "
  ++ where_sql fs
  ++ "
GROUP BY month, rideable_type
ORDER BY month, rideable_type
".

(** line 282 *)
Definition sql_weekday (fs : FilterSpec) : string :=
  "
SELECT
  CASE
    WHEN EXTRACT(DAYOFWEEK FROM ride_date) IN (1,7) THEN 'Weekend'
    ELSE 'Weekday'
  END AS day_type,
  COUNT(*) AS trip_count,
  ROUND(100 * COUNT(*) / SUM(COUNT(*)) OVER (), 2) AS pct_share
FROM "
  ++ TABLE
  ++ "
WHERE "
  ++ where_sql fs
  ++ "
GROUP BY day_type
ORDER BY trip_count DESC
".

(** line 313 *)
Definition sql_top_stations (fs : FilterSpec) : string :=
  "
SELECT
  start_station_name,
  COUNT(*) AS trip_count
FROM "
  ++ TABLE
  ++ "
WHERE "
  ++ where_sql fs
  ++ "
  AND start_station_name IS NOT NULL
GROUP BY start_station_name
ORDER BY trip_count DESC
LIMIT 10
".

(** line 340 *)
Definition sql_insights (fs : FilterSpec) : string :=
  "
WITH base AS (
  SELECT
    COUNT(*) AS trips,
    AVG(ride_duration_sec) AS avg_dur,
    SAFE_DIVIDE(SUM(CASE WHEN member_casual='member' THEN 1 ELSE 0 END), COUNT(*)) AS member_share
  FROM "
  ++ TABLE
  ++ "
  WHERE "
  ++ where_sql fs
  ++ "
),
bike_mix AS (
  SELECT
    rideable_type,
    COUNT(*) AS trips
  FROM "
  ++ TABLE
  ++ "
  WHERE "
  ++ where_sql fs
  ++ "
  GROUP BY rideable_type
  ORDER BY trips DESC
),
top_bike AS (
  SELECT AS STRUCT rideable_type, trips
  FROM bike_mix
  LIMIT 1
),
weekend AS (
  SELECT
    SAFE_DIVIDE(
      SUM(CASE WHEN EXTRACT(DAYOFWEEK FROM ride_date) IN (1,7) THEN 1 ELSE 0 END),
      COUNT(*)
    ) AS weekend_share
  FROM "
  ++ TABLE
  ++ "
  WHERE "
  ++ where_sql fs
  ++ "
)
SELECT
  base.trips,
  base.avg_dur,
  base.member_share,
  weekend.weekend_share,
  top_bike.rideable_type AS top_bike_type,
  top_bike.trips AS top_bike_trips
FROM base, weekend, top_bike
".

(** line 408 *)
Definition sql_trend (fs : FilterSpec) : string :=
  "
    WITH monthly AS (
      SELECT DATE_TRUNC(ride_date, MONTH) AS month, COUNT(*) AS trips
      FROM "
  ++ TABLE
  ++ "
      WHERE ride_date BETWEEN DATE('"
  ++ isoformat (start_date fs)
  ++ "') AND DATE('"
  ++ isoformat (end_date fs)
  ++ "')
      GROUP BY month
    )
    SELECT
      (SELECT trips FROM monthly ORDER BY month ASC LIMIT 1) AS first_trips,
      (SELECT trips FROM monthly ORDER BY month DESC LIMIT 1) AS last_trips
    ".

Definition sql_ts (fs : FilterSpec) : string :=
  match grain fs with
  | Daily => sql_ts_daily fs
  | Monthly => sql_ts_monthly fs
  end.

(** The queries one render sends after the distinct-values query, in the
    order of the script. *)
Definition catalog (fs : FilterSpec) : list string :=
  ([sql_kpis fs; sql_mom fs; sql_cat fs; sql_ts fs; sql_mix fs;
    sql_weekday fs; sql_top_stations fs; sql_insights fs]
   ++ (if 60 <=? days_selected fs then [sql_trend fs] else []))%list.

(** ** DataFrames and the backend *)

Record DataFrame := mkDF { columns : list string; rows : list (list pyval) }.

(** A row as [df.iloc[0]] gives it: values labelled by column. *)
Definition Series : Type := list (string * pyval).

(** [df.empty] *)
Definition df_empty (df : DataFrame) : bool :=
  match rows df, columns df with
  | _ :: _, _ :: _ => false
  | _, _ => true
  end.

(** [df.iloc[0]] *)
Definition iloc0 (df : DataFrame) : res Series :=
  match rows df with
  | [] => Raise IndexError
  | r :: _ => Ok (combine (columns df) r)
  end.

(** [row[k]] *)
Fixpoint getitem (row : Series) (k : string) : res pyval :=
  match row with
  | [] => Raise KeyError
  | (c, v) :: rest => if String.eqb c k then Ok v else getitem rest k
  end.

(** [v[k]] on a cell: only a STRUCT can be subscripted by a field name. *)
Definition subscript (v : pyval) (k : string) : res pyval :=
  match v with
  | VStruct fields => getitem fields k
  | _ => Raise TypeError
  end.

Definition has_column (k : string) (df : DataFrame) : bool :=
  existsb (String.eqb k) (columns df).

(** [df.loc[0, k]] *)
Definition loc0 (df : DataFrame) (k : string) : res pyval :=
  match rows df with
  | [] => Raise KeyError
  | r :: _ => getitem (combine (columns df) r) k
  end.

Fixpoint index_of (k : string) (cols : list string) : option nat :=
  match cols with
  | [] => None
  | c :: rest =>
      if String.eqb c k then Some O
      else match index_of k rest with
           | Some i => Some (S i)
           | None => None
           end
  end.

(** [df[k]] as the list of its values. *)
Definition column (k : string) (df : DataFrame) : res (list pyval) :=
  match index_of k (columns df) with
  | None => Raise KeyError
  | Some i => Ok (map (fun r => nth i r VNone) (rows df))
  end.

Fixpoint update_nth (i : nat) (f : pyval -> res pyval) (r : list pyval)
  : res (list pyval) :=
  match r, i with
  | [], _ => Ok []
  | v :: rest, O => w <- f v ;; Ok (w :: rest)
  | v :: rest, S j => rest' <- update_nth j f rest ;; Ok (v :: rest')
  end.

Fixpoint mapM {A C} (f : A -> res C) (l : list A) : res (list C) :=
  match l with
  | [] => Ok []
  | a :: rest => c <- f a ;; cs <- mapM f rest ;; Ok (c :: cs)
  end.

(** [d = df.copy(); d[k] = d[k].map(f)] *)
Definition map_column (k : string) (f : pyval -> res pyval) (df : DataFrame)
  : res DataFrame :=
  match index_of k (columns df) with
  | None => Raise KeyError
  | Some i =>
      rows' <- mapM (update_nth i f) (rows df) ;;
      Ok (mkDF (columns df) rows')
  end.

(** [df.set_index(idx)[[y]]]: the points of a chart. *)
Definition set_index_select (idx y : string) (df : DataFrame)
  : res (list (pyval * pyval)) :=
  xs <- column idx df ;;
  ys <- column y df ;;
  Ok (combine xs ys).

(** The (index, column, value) triples that [df.pivot(...)] reshapes; the
    reshaping itself and [fillna(0)] are left to the chart. *)
Definition pivot_cells (idx cols vals : string) (df : DataFrame)
  : res (list (pyval * pyval * pyval)) :=
  xs <- column idx df ;;
  cs <- column cols df ;;
  vs <- column vals df ;;
  Ok (combine (combine xs cs) vs).

(** BigQuery behind [client.query(sql).to_dataframe()]: a table, or an
    exception. *)
Definition backend : Type := string -> res DataFrame.

(** [query_bq]: the cache is keyed by the query text, so within a render it
    is the backend itself. *)
Definition query_bq (be : backend) (sql : string) : res DataFrame := be sql.

(** [sorted(xs)] on strings. *)
Fixpoint insert_sorted (x : string) (xs : list string) : list string :=
  match xs with
  | [] => [x]
  | y :: rest => if String.leb x y then x :: xs else y :: insert_sorted x rest
  end.

Definition sorted (xs : list string) : list string :=
  fold_right insert_sorted [] xs.

(** [sorted(cell)] for the cell of an ARRAY_AGG column: an array, or NULL
    (which is not iterable). *)
Definition sorted_cell (v : pyval) : res (list string) :=
  match v with
  | VArray xs => Ok (sorted xs)
  | _ => Raise TypeError
  end.

(** [get_distinct_values] (lines 73-84) *)
Definition get_distinct_values (be : backend)
  : res (list string * list string) :=
  df <- query_bq be sql_distinct ;;
  rider_types <- (if has_column "rider_types" df
                  then v <- loc0 df "rider_types" ;; sorted_cell v
                  else Ok []) ;;
  bike_types <- (if has_column "bike_types" df
                 then v <- loc0 df "bike_types" ;; sorted_cell v
                 else Ok []) ;;
  Ok (rider_types, bike_types).

(** ** The presentation sink: Streamlit calls in the order they are made *)

Inductive st_call :=
| St_title (s : string)
| St_write (s : string)
| St_header (s : string)
| St_error (s : string)
| St_metric (label value : string) (delta : option string)
| St_caption (s : string)
| St_divider
| St_subheader (s : string)
| St_info (s : string)
| St_dataframe (df : DataFrame)
| St_bar_chart (points : list (pyval * pyval))
| St_line_chart (points : list (pyval * pyval))
| St_line_chart_pivot (cells : list (pyval * pyval * pyval)).

(** A stretch of the script: it appends to the sink and either goes on or
    raises.  What was sent to the sink before an exception stays there. *)
Definition M (A : Type) : Type := list st_call -> list st_call * res A.

Definition mret {A} (a : A) : M A := fun out => (out, Ok a).

Definition mbind {A B} (m : M A) (k : A -> M B) : M B :=
  fun out =>
    match m out with
    | (out', Ok a) => k a out'
    | (out', Raise e) => (out', Raise e)
    end.

Definition emit (c : st_call) : M unit :=
  fun out => ((out ++ [c])%list, Ok tt).

Definition lift {A} (r : res A) : M A := fun out => (out, r).

Notation "x <~ m ;; k" := (mbind m (fun x => k))
  (at level 61, m at next level, right associativity).
Notation "m ;;; k" := (mbind m (fun _ => k))
  (at level 61, right associativity).

(** Statements one after the other. *)
Fixpoint run_blocks (blocks : list (M unit)) : M unit :=
  match blocks with
  | [] => mret tt
  | b :: rest => b ;;; run_blocks rest
  end.

(** The stretch [m], started with [out] in the sink, ends in an
    exception. *)
Definition raises {A} (m : M A) (out : list st_call) : Prop :=
  exists out' e, m out = (out', Raise e).

(** ** Insight bullets *)

Inductive direction := Increased | Decreased | StayedFlat.

(** One constructor per f-string that the script appends to [bullets]. *)
Inductive bullet :=
| TotalTrips (n : Z)
| AvgDuration (minutes : float)
| RiderMix (member_pct : float)
| WeekendTiming (weekend_pct : float)
| TopBike (bike_type : pyval) (n : Z)
| Trend (dir : direction) (delta : Z).

(** The values the script derives from the insight row (lines 383-388);
    [None] is Python's [None]. *)
Record insight_metrics := mkMetrics {
  trips : Z;
  avg_dur_min : option float;
  member_share : option float;
  weekend_share : option float;
  top_bike_type : pyval;
  top_bike_trips : option Z
}.

Definition is_none (v : pyval) : bool :=
  match v with
  | VNone => true
  | _ => false
  end.

(** [e if v is not None else None] *)
Definition unless_none {A} (v : pyval) (e : res A) : res (option A) :=
  if is_none v then Ok None else a <- e ;; Ok (Some a).

Definition direction_of (delta : Z) : direction :=
  if 0 <? delta then Increased
  else if delta <? 0 then Decreased
  else StayedFlat.

Definition direction_text (d : direction) : string :=
  match d with
  | Increased => "increased"
  | Decreased => "decreased"
  | StayedFlat => "stayed flat"
  end.

Definition newline : string := "
".

(** How a render ends when no exception escapes: the script ran to its last
    line, or [st.stop()] ended it. *)
Inductive run_end := Completed | Stopped.

Section Dashboard.

Variable B : builtins.

(** *** Conversions *)

(** [int(x)] *)
Definition py_int (x : pyval) : res Z :=
  match x with
  | VInt n => Ok n
  | VFloat f => int_of_float f
  | VStr s =>
      match int_of_str B s with
      | Some n => Ok n
      | None => Raise ValueError
      end
  | _ => Raise TypeError
  end.

(** [float(x)] *)
Definition py_float (x : pyval) : res float :=
  match x with
  | VInt n => float_of_int n
  | VFloat f => Ok f
  | VStr s =>
      match float_of_str B s with
      | Some f => Ok f
      | None => Raise ValueError
      end
  | _ => Raise TypeError
  end.

(** [str(x)] *)
Definition py_str (x : pyval) : string :=
  match x with
  | VNone => "None"
  | VInt n => digits n
  | VFloat f =>
      match Prim2SF f with
      | S754_nan => "nan"
      | S754_infinity s => sign_str s ++ "inf"
      | _ => repr_other B x
      end
  | VStr s => s
  | VDate d => isoformat d
  | _ => repr_other B x
  end.

(** [a - b]; a difference of dates is a [timedelta], which [int] rejects
    with the [TypeError] raised here. *)
Definition py_sub (a b : pyval) : res pyval :=
  match a, b with
  | VInt x, VInt y => Ok (VInt (x - y))
  | VInt x, VFloat y => f <- float_of_int x ;; Ok (VFloat (f - y)%float)
  | VFloat x, VInt y => f <- float_of_int y ;; Ok (VFloat (x - f)%float)
  | VFloat x, VFloat y => Ok (VFloat (x - y)%float)
  | _, _ => Raise TypeError
  end.

(** *** Formatting and derivation helpers (lines 19-39) *)

Definition fmt_int (x : pyval) : res string :=
  try_except
    (n <- py_int x ;; Ok (format_comma n))
    (Ok (py_str x)).

Definition fmt_seconds_to_min (sec : pyval) : res string :=
  try_except
    (f <- py_float sec ;; Ok (format_1f (f / 60)%float ++ " min"))
    (Ok (py_str sec)).

(** The result is [None] or a float. *)
Definition pct_change (curr prev : pyval) : res (option float) :=
  try_except
    (c <- py_float curr ;;
     p <- py_float prev ;;
     if PrimFloat.eqb p 0%float then Ok None
     else Ok (Some ((c - p) / p)%float))
    (Ok None).

Definition fmt_int_cell (v : pyval) : res pyval :=
  s <- fmt_int v ;; Ok (VStr s).

(** [f"{(float(x) * 100):.1f}%"] *)
Definition fmt_share (x : pyval) : res string :=
  f <- py_float x ;; Ok (format_1f (f * 100)%float ++ "%").

(** *** KPI row (lines 116-140) *)

Definition view_kpis (fs : FilterSpec) (be : backend) : M unit :=
  df <~ lift (query_bq be (sql_kpis fs)) ;;
  kpi <~ lift (iloc0 df) ;;
  v1 <~ lift (x <- getitem kpi "trips" ;; fmt_int x) ;;
  emit (St_metric "Total trips" v1 None) ;;;
  v2 <~ lift (x <- getitem kpi "avg_duration_sec" ;; fmt_seconds_to_min x) ;;
  emit (St_metric "Avg duration" v2 None) ;;;
  v3 <~ lift (x <- getitem kpi "member_share" ;; fmt_share x) ;;
  emit (St_metric "Member share" v3 None) ;;;
  v4 <~ lift (x <- getitem kpi "electric_share" ;; fmt_share x) ;;
  emit (St_metric "Electric share" v4 None) ;;;
  bike_type <~ lift (tb <- getitem kpi "top_bike" ;;
                     if is_none tb then Ok (VStr "N/A")
                     else subscript tb "rideable_type") ;;
  bike_count <~ lift (tb <- getitem kpi "top_bike" ;;
                      if is_none tb then Ok (VInt 0)
                      else subscript tb "c") ;;
  c <~ lift (fmt_int bike_count) ;;
  emit (St_metric "Top bike type" (py_str bike_type ++ " (" ++ c ++ ")") None).

(** *** Month over month (lines 145-177) *)

Definition view_mom (fs : FilterSpec) (be : backend) : M unit :=
  df_mom <~ lift (query_bq be (sql_mom fs)) ;;
  no_prev <~ lift (if df_empty df_mom then Ok true
                   else r <- iloc0 df_mom ;;
                        p <- getitem r "prev_trips" ;;
                        Ok (is_none p)) ;;
  (if no_prev : bool then emit (St_metric "MoM change (trips)" "N/A" None)
   else
     curr_trips <~ lift (r <- iloc0 df_mom ;; getitem r "curr_trips") ;;
     prev_trips <~ lift (r <- iloc0 df_mom ;; getitem r "prev_trips") ;;
     mom <~ lift (pct_change curr_trips prev_trips) ;;
     delta <~ lift (d <- py_sub curr_trips prev_trips ;;
                    n <- py_int d ;;
                    Ok (format_comma n ++ " trips")) ;;
     emit (St_metric "MoM change (trips)"
             match mom with
             | Some m => format_1f (m * 100)%float ++ "%"
             | None => "N/A"
             end
             (Some delta))) ;;;
  emit (St_caption
    "MoM compares the last month in the selected range to the previous month.").

(** *** Charts and tables (lines 184-331) *)

Definition view_cat (fs : FilterSpec) (be : backend) : M unit :=
  emit (St_subheader "Trips by Rider Type (Member vs Casual)") ;;;
  df_cat <~ lift (query_bq be (sql_cat fs)) ;;
  if df_empty df_cat then emit (St_info "No data for the selected filters.")
  else
    shown <~ lift (map_column "trip_count" fmt_int_cell df_cat) ;;
    emit (St_dataframe shown) ;;;
    pts <~ lift (set_index_select "member_casual" "trip_count" df_cat) ;;
    emit (St_bar_chart pts).

Definition view_ts (fs : FilterSpec) (be : backend) : M unit :=
  emit (St_subheader match grain fs with
                     | Daily => "Trips Over Time (Daily)"
                     | Monthly => "Trips Over Time (Monthly)"
                     end) ;;;
  df_ts <~ lift (query_bq be (sql_ts fs)) ;;
  if df_empty df_ts then emit (St_info "No data for the selected filters.")
  else
    pts <~ lift (set_index_select "period" "trip_count" df_ts) ;;
    emit (St_line_chart pts) ;;;
    shown <~ lift (map_column "trip_count" fmt_int_cell df_ts) ;;
    emit (St_dataframe shown).

Definition view_mix (fs : FilterSpec) (be : backend) : M unit :=
  emit (St_subheader "Bike Type Usage Trends Over Time") ;;;
  emit (St_caption
    "Monthly trip counts split by `rideable_type` (e.g., classic vs electric).") ;;;
  df_mix <~ lift (query_bq be (sql_mix fs)) ;;
  if df_empty df_mix then emit (St_info "No data for the selected filters.")
  else
    cells <~ lift (pivot_cells "month" "rideable_type" "trip_count" df_mix) ;;
    emit (St_line_chart_pivot cells) ;;;
    shown <~ lift (map_column "trip_count" fmt_int_cell df_mix) ;;
    emit (St_dataframe shown).

Definition view_weekday (fs : FilterSpec) (be : backend) : M unit :=
  emit (St_subheader "Weekday vs Weekend Split") ;;;
  df_weekday <~ lift (query_bq be (sql_weekday fs)) ;;
  if df_empty df_weekday
  then emit (St_info "No data for the selected filters.")
  else
    emit (St_dataframe df_weekday) ;;;
    pts <~ lift (set_index_select "day_type" "trip_count" df_weekday) ;;
    emit (St_bar_chart pts).

Definition view_top_stations (fs : FilterSpec) (be : backend) : M unit :=
  emit (St_subheader "Top Start Stations") ;;;
  df_top <~ lift (query_bq be (sql_top_stations fs)) ;;
  if df_empty df_top
  then emit (St_info "No station data for the selected filters.")
  else
    shown <~ lift (map_column "trip_count" fmt_int_cell df_top) ;;
    emit (St_dataframe shown).

(** *** Insights (lines 338-427) *)

Definition read_insights (ins : Series) : res insight_metrics :=
  t <- (x <- getitem ins "trips" ;; py_int x) ;;
  a <- (x <- getitem ins "avg_dur" ;;
        unless_none x (f <- py_float x ;; Ok (f / 60)%float)) ;;
  m <- (x <- getitem ins "member_share" ;;
        unless_none x (f <- py_float x ;; Ok (f * 100)%float)) ;;
  w <- (x <- getitem ins "weekend_share" ;;
        unless_none x (f <- py_float x ;; Ok (f * 100)%float)) ;;
  ty <- getitem ins "top_bike_type" ;;
  n <- (x <- getitem ins "top_bike_trips" ;; unless_none x (py_int x)) ;;
  Ok (mkMetrics t a m w ty n).

Definition option_list {A} (o : option A) : list A :=
  match o with
  | Some a => [a]
  | None => []
  end.

(** The bullets appended on lines 390-404, in the order of the appends. *)
Definition base_bullets (m : insight_metrics) : list bullet :=
  ([TotalTrips (trips m)]
   ++ option_list (option_map AvgDuration (avg_dur_min m))
   ++ option_list (option_map RiderMix (member_share m))
   ++ option_list (option_map WeekendTiming (weekend_share m))
   ++ (if is_none (top_bike_type m) then []
       else option_list (option_map (TopBike (top_bike_type m))
                           (top_bike_trips m))))%list.

(** The trend bullet (lines 407-425): no bullet, or one. *)
Definition trend_bullets (fs : FilterSpec) (be : backend) : res (list bullet) :=
  if 60 <=? days_selected fs then
    df <- query_bq be (sql_trend fs) ;;
    t <- iloc0 df ;;
    f <- getitem t "first_trips" ;;
    if is_none f then Ok []
    else
      l <- getitem t "last_trips" ;;
      if is_none l then Ok []
      else
        first_trips <- (x <- getitem t "first_trips" ;; py_int x) ;;
        last_trips <- (x <- getitem t "last_trips" ;; py_int x) ;;
        let delta := last_trips - first_trips in
        Ok [Trend (direction_of delta) delta]
  else Ok [].

(** The list [bullets] when line 427 is reached. *)
Definition insight_bullets (fs : FilterSpec) (be : backend)
  : res (list bullet) :=
  df <- query_bq be (sql_insights fs) ;;
  ins <- iloc0 df ;;
  m <- read_insights ins ;;
  tr <- trend_bullets fs be ;;
  Ok (base_bullets m ++ tr)%list.

Definition bullet_text (b : bullet) : string :=
  match b with
  | TotalTrips n =>
      "Total trips in selected period: **" ++ format_comma n ++ "**."
  | AvgDuration a =>
      "Average trip duration: **" ++ format_1f a ++ " minutes**."
  | RiderMix m =>
      "Rider mix: **" ++ format_1f m ++ "% members** (and "
      ++ format_1f (100 - m)%float ++ "% casual)."
  | WeekendTiming w =>
      "Trip timing: **" ++ format_1f w ++ "%** of trips occur on weekends."
  | TopBike ty n =>
      "Most used bike type: **" ++ py_str ty ++ "** with **"
      ++ format_comma n ++ "** trips."
  | Trend d delta =>
      "Overall trend: trips **" ++ direction_text d
      ++ "** from first to last month (Δ " ++ format_comma delta ++ ")."
  end.

Definition view_insights (fs : FilterSpec) (be : backend) : M unit :=
  emit (St_subheader "Insights") ;;;
  bullets <~ lift (insight_bullets fs be) ;;
  emit (St_info (String.concat newline
                   (map (fun b => "• " ++ bullet_text b) bullets))) ;;;
  emit (St_caption
    "Warehouse: BigQuery `marts.fact_trips` (partitioned by ride_date, clustered by member_casual and rideable_type).").

(** *** The whole script *)

Definition page_intro : list st_call :=
  [ St_title "🚲 Citi Bike Analytics Dashboard";
    St_write "
This dashboard is built on a BigQuery warehouse table (`marts.fact_trips`) populated from
NYC Citi Bike trip history files (Batch pipeline → GCS → BigQuery).
Use the filters to explore rider behavior and time trends.
";
    St_header "Filters" ].

(** The blocks of the page below the filters, in the order of the script
    (lines 113-431). *)
Definition blocks (fs : FilterSpec) (be : backend) : list (M unit) :=
  [ view_kpis fs be;
    view_mom fs be;
    emit St_divider;
    view_cat fs be;
    view_ts fs be;
    emit St_divider;
    view_mix fs be;
    emit St_divider;
    view_weekday fs be;
    emit St_divider;
    view_top_stations fs be;
    emit St_divider;
    view_insights fs be ].

(** Everything below the date check (lines 68-431). *)
Definition dashboard (ui : sidebar) (be : backend) : M run_end :=
  u <~ lift (get_distinct_values be) ;;
  let fs := read_filters ui (fst u) (snd u) in
  run_blocks (blocks fs be) ;;;
  mret Completed.

(** One render: what reached the sink, and how the script ended. *)
Definition render (ui : sidebar) (be : backend) : list st_call * res run_end :=
  let s := or_default (ui_start ui) default_start in
  let e := or_default (ui_end ui) default_end in
  if date_gt s e
  then ((page_intro ++ [St_error "Start date must be before end date."])%list,
        Ok Stopped)
  else dashboard ui be page_intro.

End Dashboard.

(** ** Reading a predicate back

    To say what a predicate text means, it is read the way BigQuery reads
    it: a single quote opens a string literal, the literal runs to the next
    quote that no backslash escapes, and everything else is query text.
    The reading keeps the query text with a [?] in place of each literal,
    and the bodies of the literals in order: the parameterised form of the
    predicate. *)

Definition quote_char : ascii := "'"%char.
Definition backslash : ascii := "\"%char.

Inductive lex_mode := Outside | Inside | Escaped.

Record lexer := mkLexer {
  mode : lex_mode;
  skeleton : string;
  literals : list string;
  current : string
}.

Definition snoc (s : string) (c : ascii) : string := s ++ String c "".

Definition lex_step (l : lexer) (c : ascii) : lexer :=
  match mode l with
  | Outside =>
      if Ascii.eqb c quote_char
      then mkLexer Inside (snoc (skeleton l) "?") (literals l) ""
      else mkLexer Outside (snoc (skeleton l) c) (literals l) ""
  | Inside =>
      if Ascii.eqb c quote_char
      then mkLexer Outside (skeleton l) (literals l ++ [current l])%list ""
      else mkLexer (if Ascii.eqb c backslash then Escaped else Inside)
             (skeleton l) (literals l) (snoc (current l) c)
  | Escaped =>
      mkLexer Inside (skeleton l) (literals l) (snoc (current l) c)
  end.

Fixpoint lex_from (l : lexer) (s : string) : lexer :=
  match s with
  | EmptyString => l
  | String c r => lex_from (lex_step l c) r
  end.

(** The parameterised form of a predicate text; [None] when a literal is
    left open. *)
Definition read_predicate (s : string) : option (string * list string) :=
  let l := lex_from (mkLexer Outside "" [] "") s in
  match mode l with
  | Outside => Some (skeleton l, literals l)
  | _ => None
  end.

(** A value that is safe between quotes: no quote and no backslash. *)
Fixpoint plain (s : string) : bool :=
  match s with
  | EmptyString => true
  | String c r =>
      (negb (Ascii.eqb c quote_char) && negb (Ascii.eqb c backslash)
       && plain r)%bool
  end.

(** The predicate the filters call for, in parameterised form: the date
    range, then one membership test per non-empty selection, with the
    dates and the selected values as parameters. *)
Definition placeholders (n : nat) : string :=
  String.concat ", " (repeat "?" n).

Definition intended_skeleton (fs : FilterSpec) : string :=
  String.concat " AND "
    (["ride_date BETWEEN DATE(?) AND DATE(?)"]
     ++ (if truthy (rider_filter fs)
         then [("member_casual IN ("
                ++ placeholders (List.length (rider_filter fs)) ++ ")")%string]
         else [])
     ++ (if truthy (bike_filter fs)
         then [("rideable_type IN ("
                ++ placeholders (List.length (bike_filter fs)) ++ ")")%string]
         else []))%list.

Definition intended_params (fs : FilterSpec) : list string :=
  ([isoformat (start_date fs); isoformat (end_date fs)]
   ++ rider_filter fs ++ bike_filter fs)%list.

(** Which clause of [where_clauses] is which. *)
Definition is_rider_clause (c : string) : bool := prefix "member_casual IN (" c.
Definition is_bike_clause (c : string) : bool := prefix "rideable_type IN (" c.

Definition has_rider_clause (fs : FilterSpec) : bool :=
  existsb is_rider_clause (where_clauses fs).
Definition has_bike_clause (fs : FilterSpec) : bool :=
  existsb is_bike_clause (where_clauses fs).

(** [sub in s] *)
Fixpoint contains (s sub : string) : bool :=
  if prefix sub s then true
  else match s with
       | EmptyString => false
       | String _ r => contains r sub
       end.

(** Query text without a quote. *)
Fixpoint quote_free (s : string) : bool :=
  match s with
  | EmptyString => true
  | String c r => (negb (Ascii.eqb c quote_char) && quote_free r)%bool
  end.

(** ** Sample inputs *)

(** A run time that parses no string. *)
Definition no_parsing : builtins :=
  {| int_of_str := fun _ => None;
     float_of_str := fun _ => None;
     repr_other := fun _ => "<object>" |}.

Definition sample_riders : list string := ["casual"; "member"].
Definition sample_bikes : list string := ["classic_bike"; "electric_bike"].

(** The sidebar as the page first shows it. *)
Definition untouched : sidebar := mkSidebar None None None None None.

Definition default_filters : FilterSpec :=
  read_filters untouched sample_riders sample_bikes.

(** Only members selected. *)
Definition members_only : FilterSpec :=
  read_filters (mkSidebar None None None (Some ["member"]) None)
    sample_riders sample_bikes.

(** A rider type, as stored in the table, that contains quotes. *)
Definition quoted_value : string := "x') OR ('1'='1".

Definition quoted_selection : FilterSpec :=
  read_filters (mkSidebar None None None (Some [quoted_value]) (Some []))
    [quoted_value; "member"] sample_bikes.

Definition frame (cols : list string) (cells : list (list pyval))
  : res DataFrame :=
  Ok (mkDF cols cells).

(** A backend given by its answers, per query text; any other query gets a
    table without rows. *)
Fixpoint answer (table : list (string * res DataFrame)) (q : string)
  : res DataFrame :=
  match table with
  | [] => frame [] []
  | (k, r) :: rest => if String.eqb k q then r else answer rest q
  end.

(** 1000 trips, 600 of them by members, 900 seconds on average. *)
Definition sample_answers (fs : FilterSpec) : list (string * res DataFrame) :=
  [ (sql_distinct,
     frame ["rider_types"; "bike_types"]
       [[VArray ["member"; "casual"];
         VArray ["electric_bike"; "classic_bike"]]]);
    (sql_kpis fs,
     frame ["trips"; "avg_duration_sec"; "member_share"; "electric_share";
            "top_bike"]
       [[VInt 1000; VFloat 900; VFloat (600 / 1000); VFloat (700 / 1000);
         VStruct [("rideable_type", VStr "electric_bike"); ("c", VInt 700)]]]);
    (sql_mom fs,
     frame ["curr_month"; "curr_trips"; "prev_month"; "prev_trips"]
       [[VDate (mkdate 2024 12 1); VInt 150;
         VDate (mkdate 2024 11 1); VInt 100]]);
    (sql_cat fs,
     frame ["member_casual"; "trip_count"]
       [[VStr "member"; VInt 600]; [VStr "casual"; VInt 400]]);
    (sql_ts fs,
     frame ["period"; "trip_count"]
       [[VDate (mkdate 2024 11 1); VInt 100];
        [VDate (mkdate 2024 12 1); VInt 150]]);
    (sql_mix fs,
     frame ["month"; "rideable_type"; "trip_count"]
       [[VDate (mkdate 2024 12 1); VStr "classic_bike"; VInt 50];
        [VDate (mkdate 2024 12 1); VStr "electric_bike"; VInt 100]]);
    (sql_weekday fs,
     frame ["day_type"; "trip_count"; "pct_share"]
       [[VStr "Weekday"; VInt 750; VFloat 75];
        [VStr "Weekend"; VInt 250; VFloat 25]]);
    (sql_top_stations fs,
     frame ["start_station_name"; "trip_count"]
       [[VStr "W 21 St & 6 Ave"; VInt 1234]]);
    (sql_insights fs,
     frame ["trips"; "avg_dur"; "member_share"; "weekend_share";
            "top_bike_type"; "top_bike_trips"]
       [[VInt 1000; VFloat 900; VFloat (600 / 1000); VFloat (250 / 1000);
         VStr "electric_bike"; VInt 700]]);
    (sql_trend fs,
     frame ["first_trips"; "last_trips"] [[VInt 80; VInt 150]]) ].

Definition sample_backend : backend := answer (sample_answers default_filters).

(** The same backend with one query failing. *)
Definition failing (q : string) (be : backend) : backend :=
  fun q' => if String.eqb q' q then Raise BackendError else be q'.

Definition top_stations_down : backend :=
  failing (sql_top_stations default_filters) sample_backend.

(** A backend for a date range without trips: counts are 0, the averages,
    shares and the top bike are NULL, grouped queries have no rows, and so
    has the insight query, whose cross join includes the empty [top_bike]. *)
Definition no_trips_answers (fs : FilterSpec) : list (string * res DataFrame) :=
  [ (sql_distinct,
     frame ["rider_types"; "bike_types"]
       [[VArray ["member"; "casual"];
         VArray ["electric_bike"; "classic_bike"]]]);
    (sql_kpis fs,
     frame ["trips"; "avg_duration_sec"; "member_share"; "electric_share";
            "top_bike"]
       [[VInt 0; VNone; VNone; VNone; VNone]]);
    (sql_mom fs,
     frame ["curr_month"; "curr_trips"; "prev_month"; "prev_trips"]
       [[VNone; VNone; VNone; VNone]]);
    (sql_insights fs,
     frame ["trips"; "avg_dur"; "member_share"; "weekend_share";
            "top_bike_type"; "top_bike_trips"] []);
    (sql_trend fs,
     frame ["first_trips"; "last_trips"] [[VNone; VNone]]) ].

Definition no_trips_backend : backend :=
  answer (no_trips_answers default_filters).

(** The same range when the client library delivers a NULL float as NaN
    instead of [None]. *)
Definition no_trips_nan_backend : backend :=
  answer
    ((sql_kpis default_filters,
      frame ["trips"; "avg_duration_sec"; "member_share"; "electric_share";
             "top_bike"]
        [[VInt 0; VFloat nan; VFloat nan; VFloat nan; VNone]])
     :: no_trips_answers default_filters).

(** ** Typed cells and the order of the bullets *)

(** A nullable INT64, FLOAT64 or STRING cell. *)
Definition count_cell (c : option Z) : pyval :=
  match c with
  | Some n => VInt n
  | None => VNone
  end.









(** Ranges of 59 and of 60 days. *)
Definition fifty_nine_days : FilterSpec :=
  read_filters (mkSidebar None (Some (mkdate 2024 2 29)) None None None)
    sample_riders sample_bikes.

Definition sixty_days : FilterSpec :=
  read_filters (mkSidebar None (Some (mkdate 2024 3 1)) None None None)
    sample_riders sample_bikes.

(** ** Dates as the date widget returns them *)

(** A calendar date of the proleptic Gregorian calendar, years 1 to 9999:
    the values of [datetime.date]. *)
Definition valid_date (d : date) : bool :=
  ((1 <=? year d) && (year d <=? 9999) && (1 <=? month d) && (month d <=? 12)
   && (1 <=? day d) && (day d <=? days_in_month (year d) (month d)))%bool.

(** The rank of a date within its year. *)
Definition day_of_year (d : date) : Z :=
  days_before_month (year d) (month d) + day d.

(** The message of the date check (line 65). *)
Definition range_error : st_call :=
  St_error "Start date must be before end date.".


(** Ascending order on strings, as [sorted] leaves them. *)
Definition str_le (a b : string) : Prop := String.leb a b = true.



(** The text [fmt_int] returns, as a function of the cell. *)
Definition int_text (B : builtins) (v : pyval) : string :=
  match py_int B v with
  | Ok n => format_comma n
  | Raise _ => py_str B v
  end.

(** A row with its [i]-th cell replaced by the text of [fmt_int]. *)
Fixpoint show_count (B : builtins) (i : nat) (r : list pyval) : list pyval :=
  match r, i with
  | [], _ => []
  | v :: rest, O => VStr (int_text B v) :: rest
  | v :: rest, S j => v :: show_count B j rest
  end.




(** The table a view shows: column [i] formatted by [fmt_int]. *)
Definition shown (B : builtins) (i : nat) (df : DataFrame) : DataFrame :=
  mkDF (columns df) (map (show_count B i) (rows df)).

Definition no_data : st_call := St_info "No data for the selected filters.".



(** * Properties *)

Section Helpers.

Variable B : builtins.




End Helpers.

(** ** Default grain *)

(** C7: the default grain depends on the selected range only through its
    length in days: it is Monthly exactly when the range is longer than 45
    days and Daily otherwise.  A range of 44 days (2024-01-01 to 2024-02-14)
    defaults to Daily, one of 46 days (to 2024-02-16) to Monthly, and a radio
    left untouched takes that default. *)
Theorem default_grain_by_range_length :
  (forall days, default_grain days = Monthly <-> 45 < days)
  /\ (forall days, default_grain days = Daily <-> days <= 45)
  /\ (forall s e riders bikes rider_types bike_types,
        let fs := read_filters (mkSidebar (Some s) (Some e) None riders bikes)
                    rider_types bike_types in
        grain fs = default_grain (days_selected fs))
  /\ days_between (mkdate 2024 1 1) (mkdate 2024 2 14) = 44
  /\ default_grain 44 = Daily
  /\ days_between (mkdate 2024 1 1) (mkdate 2024 2 16) = 46
  /\ default_grain 46 = Monthly.
Proof.
  split; [|split; [|split; [|split; [|split; [|split]]]]];
    try reflexivity.
  - intros days. unfold default_grain.
    destruct (Z.ltb_spec 45 days); split; intros; try easy; lia.
  - intros days. unfold default_grain.
    destruct (Z.ltb_spec 45 days); split; intros; try easy; lia.
Qed.

(** ** Percentage change *)


(** ** Formatting helpers *)


(** ** Predicate builder *)

Section Strings.

Lemma append_assoc (a b c : string) : ((a ++ b) ++ c = a ++ (b ++ c))%string.
Proof. induction a as [|x a IH]; simpl; [reflexivity | now rewrite IH]. Qed.

Lemma append_nil_r (a : string) : (a ++ "")%string = a.
Proof. induction a as [|x a IH]; simpl; [reflexivity | now rewrite IH]. Qed.

Lemma snoc_append (a : string) (c : ascii) (b : string) :
  (snoc a c ++ b = a ++ String c b)%string.
Proof. unfold snoc. now rewrite append_assoc. Qed.

Lemma prefix_app (w s : string) : prefix w (w ++ s) = true.
Proof.
  induction w as [|c w IH]; simpl.
  - destruct s; reflexivity.
  - destruct (ascii_dec c c); [assumption | congruence].
Qed.

Lemma lex_from_app (l : lexer) (a b : string) :
  lex_from l (a ++ b) = lex_from (lex_from l a) b.
Proof. revert l. induction a as [|x a IH]; intros l; simpl; auto. Qed.

Lemma lex_text (t sk : string) (ls : list string) :
  quote_free t = true ->
  lex_from (mkLexer Outside sk ls "") t = mkLexer Outside (sk ++ t) ls "".
Proof.
  revert sk. induction t as [|c t IH]; intros sk H; simpl in *.
  - now rewrite append_nil_r.
  - apply andb_prop in H as [Hc Ht]. unfold lex_step; simpl.
    destruct (Ascii.eqb c quote_char); [discriminate|].
    rewrite IH by assumption. now rewrite snoc_append.
Qed.

Lemma lex_value (v sk : string) (ls : list string) (cur : string) :
  plain v = true ->
  lex_from (mkLexer Inside sk ls cur) v = mkLexer Inside sk ls (cur ++ v).
Proof.
  revert cur. induction v as [|c v IH]; intros cur H; simpl in *.
  - now rewrite append_nil_r.
  - apply andb_prop in H as [H Hv]. apply andb_prop in H as [Hq Hb].
    unfold lex_step; simpl.
    destruct (Ascii.eqb c quote_char); [discriminate|].
    destruct (Ascii.eqb c backslash); [discriminate|].
    rewrite IH by assumption. now rewrite snoc_append.
Qed.

Lemma lex_quoted (v sk : string) (ls : list string) :
  plain v = true ->
  lex_from (mkLexer Outside sk ls "") (quote_sql v)
  = mkLexer Outside (sk ++ "?") (ls ++ [v]) "".
Proof.
  intros H. unfold quote_sql.
  change ("'" ++ v ++ "'")%string with (String quote_char (v ++ "'")).
  simpl. unfold lex_step at 1; simpl.
  rewrite lex_from_app, lex_value by assumption. reflexivity.
Qed.

Lemma lex_in_list (xs : list string) (sk : string) (ls : list string) :
  forallb plain xs = true ->
  lex_from (mkLexer Outside sk ls "") (in_list xs)
  = mkLexer Outside (sk ++ placeholders (List.length xs)) (ls ++ xs) "".
Proof.
  unfold in_list, placeholders.
  revert sk ls. induction xs as [|x xs IH]; intros sk ls H.
  - simpl. now rewrite append_nil_r, app_nil_r.
  - simpl in H. apply andb_prop in H as [Hx Hxs].
    destruct xs as [|y xs].
    + simpl. apply lex_quoted; assumption.
    + change (String.concat ", " (map quote_sql (x :: y :: xs)))
        with (quote_sql x ++ ", " ++ String.concat ", " (map quote_sql (y :: xs)))%string.
      change (String.concat ", " (repeat "?" (List.length (x :: y :: xs))))
        with ("?" ++ ", " ++ String.concat ", " (repeat "?" (List.length (y :: xs))))%string.
      rewrite !lex_from_app, lex_quoted, lex_text by (assumption || reflexivity).
      rewrite IH by assumption.
      rewrite !append_assoc, <- app_assoc. reflexivity.
Qed.

Lemma digit_plain (d : Z) :
  (negb (Ascii.eqb (digit d) quote_char)
   && negb (Ascii.eqb (digit d) backslash))%bool = true.
Proof.
  unfold digit.
  assert (H : (Z.to_nat (d mod 10) < 10)%nat).
  { pose proof (Z.mod_pos_bound d 10 ltac:(lia)). lia. }
  revert H. generalize (Z.to_nat (d mod 10)) as k. intros k H.
  do 10 (destruct k as [|k]; [reflexivity|]). lia.
Qed.

Lemma isoformat_plain (d : date) : plain (isoformat d) = true.
Proof.
  unfold isoformat, pad4, pad2. cbn [plain append].
  rewrite !digit_plain. reflexivity.
Qed.

Lemma lex_date_clause (fs : FilterSpec) :
  lex_from (mkLexer Outside "" [] "") (date_clause fs)
  = mkLexer Outside "ride_date BETWEEN DATE(?) AND DATE(?)"
      [isoformat (start_date fs); isoformat (end_date fs)] "".
Proof.
  assert (E : date_clause fs
              = ("ride_date BETWEEN DATE(" ++ quote_sql (isoformat (start_date fs))
                 ++ ") AND DATE(" ++ quote_sql (isoformat (end_date fs))
                 ++ ")")%string).
  { unfold date_clause, quote_sql. rewrite !append_assoc. reflexivity. }
  rewrite E, !lex_from_app.
  rewrite lex_text by reflexivity.
  rewrite lex_quoted by apply isoformat_plain.
  rewrite lex_text by reflexivity.
  rewrite lex_quoted by apply isoformat_plain.
  rewrite lex_text by reflexivity.
  reflexivity.
Qed.

Lemma lex_membership (col : string) (xs : list string) (sk : string)
  (ls : list string) :
  quote_free col = true ->
  forallb plain xs = true ->
  lex_from (mkLexer Outside sk ls "") (" AND " ++ (col ++ in_list xs ++ ")"))
  = mkLexer Outside
      (sk ++ " AND " ++ (col ++ placeholders (List.length xs) ++ ")"))
      (ls ++ xs) "".
Proof.
  intros Hc Hx.
  rewrite !lex_from_app.
  rewrite lex_text by reflexivity.
  rewrite lex_text by assumption.
  rewrite lex_in_list by assumption.
  rewrite lex_text by reflexivity.
  rewrite !append_assoc. reflexivity.
Qed.

End Strings.

Lemma lex_seq (l l1 l2 : lexer) (a b : string) :
  lex_from l a = l1 -> lex_from l1 b = l2 -> lex_from l (a ++ b) = l2.
Proof. intros <- <-. apply lex_from_app. Qed.

Lemma lex_where_sql (fs : FilterSpec) :
  forallb plain (rider_filter fs) = true ->
  forallb plain (bike_filter fs) = true ->
  lex_from (mkLexer Outside "" [] "") (where_sql fs)
  = mkLexer Outside (intended_skeleton fs) (intended_params fs) "".
Proof.
  intros Hr Hb.
  unfold where_sql, where_clauses, intended_skeleton, intended_params.
  unfold rider_clause, bike_clause.
  destruct (rider_filter fs) as [|r rs]; destruct (bike_filter fs) as [|b bs];
    cbn [truthy app String.concat].
  - apply lex_date_clause.
  - etransitivity.
    + eapply lex_seq; [apply lex_date_clause|].
      apply lex_membership; [reflexivity | assumption].
    + reflexivity.
  - etransitivity.
    + eapply lex_seq; [apply lex_date_clause|].
      apply lex_membership; [reflexivity | assumption].
    + now rewrite app_nil_r.
  - rewrite <- (append_assoc " AND " ("member_casual IN (" ++ _ ++ ")")).
    etransitivity.
    + eapply lex_seq; [apply lex_date_clause|].
      eapply lex_seq; apply lex_membership;
        solve [reflexivity | assumption].
    + rewrite !append_assoc, <- !app_assoc. reflexivity.
Qed.

(** C1 (as the code has it): the selected values are placed between quotes
    as they are, with no escaping.  When no selected value contains a quote
    or a backslash, the predicate text reads back as exactly the intended
    clauses: the date range and one membership test per non-empty
    selection, with the two dates and the selected values, in order,
    as its literals. *)
Theorem where_sql_structure_for_plain_values (fs : FilterSpec) :
  forallb plain (rider_filter fs) = true ->
  forallb plain (bike_filter fs) = true ->
  read_predicate (where_sql fs)
  = Some (intended_skeleton fs, intended_params fs).
Proof.
  intros Hr Hb. unfold read_predicate.
  rewrite lex_where_sql by assumption. reflexivity.
Qed.

Lemma where_sql_structure_for_plain_values_witness :
  forallb plain (rider_filter members_only) = true
  /\ forallb plain (bike_filter members_only) = true
  /\ read_predicate (where_sql members_only)
     = Some ("ride_date BETWEEN DATE(?) AND DATE(?) AND member_casual IN (?) AND rideable_type IN (?, ?)",
             ["2024-01-01"; "2024-12-31"; "member"; "classic_bike";
              "electric_bike"]).
Proof.
  split; [reflexivity | split; [reflexivity |]].
  apply (where_sql_structure_for_plain_values members_only); reflexivity.
Defined.

(** C1, as stated, fails: a selected value with quotes changes the
    structure of the predicate.  The one selected rider type
    [x') OR ('1'='1] yields a predicate with an [OR] and three literals
    where one membership test over one value was intended. *)
Lemma quoted_value_alters_predicate :
  rider_filter quoted_selection = ["x') OR ('1'='1"]
  /\ where_sql quoted_selection
     = "ride_date BETWEEN DATE('2024-01-01') AND DATE('2024-12-31') AND member_casual IN ('x') OR ('1'='1')"
  /\ read_predicate (where_sql quoted_selection)
     = Some ("ride_date BETWEEN DATE(?) AND DATE(?) AND member_casual IN (?) OR (?=?)",
             ["2024-01-01"; "2024-12-31"; "x"; "1"; "1"])
  /\ read_predicate (where_sql quoted_selection)
     <> Some (intended_skeleton quoted_selection,
              intended_params quoted_selection).
Proof.
  split; [reflexivity |].
  split; [vm_compute; reflexivity |].
  split; [vm_compute; reflexivity | vm_compute; discriminate].
Qed.

(** C4 (as the code has it): a membership clause is emitted exactly when
    the selection is not empty, whether or not it is the whole universe of
    available values; there is at most one clause per field, and it lists
    the selected values, each between quotes, in the order of the
    selection. *)
Theorem membership_clause_iff_nonempty (fs : FilterSpec) :
  filter is_rider_clause (where_clauses fs)
  = (if truthy (rider_filter fs) then [rider_clause (rider_filter fs)] else [])
  /\ filter is_bike_clause (where_clauses fs)
     = (if truthy (bike_filter fs) then [bike_clause (bike_filter fs)] else [])
  /\ (has_rider_clause fs = true <-> rider_filter fs <> [])
  /\ (has_bike_clause fs = true <-> bike_filter fs <> [])
  /\ (forall xs,
        rider_clause xs
        = "member_casual IN ("
          ++ String.concat ", " (map (fun x => "'" ++ x ++ "'") xs) ++ ")")
  /\ (forall xs,
        bike_clause xs
        = "rideable_type IN ("
          ++ String.concat ", " (map (fun x => "'" ++ x ++ "'") xs) ++ ")").
Proof.
  assert (Hd1 : is_rider_clause (date_clause fs) = false) by reflexivity.
  assert (Hd2 : is_bike_clause (date_clause fs) = false) by reflexivity.
  assert (Hr1 : forall xs, is_rider_clause (rider_clause xs) = true)
    by (intros; apply prefix_app).
  assert (Hr2 : forall xs, is_bike_clause (rider_clause xs) = false)
    by reflexivity.
  assert (Hb1 : forall xs, is_rider_clause (bike_clause xs) = false)
    by reflexivity.
  assert (Hb2 : forall xs, is_bike_clause (bike_clause xs) = true)
    by (intros; apply prefix_app).
  unfold has_rider_clause, has_bike_clause, where_clauses.
  destruct (rider_filter fs) as [|r rs]; destruct (bike_filter fs) as [|b bs];
    cbn [truthy app filter existsb];
    rewrite ?Hd1, ?Hd2, ?Hr1, ?Hr2, ?Hb1, ?Hb2; cbn [orb];
    (split; [reflexivity | split; [reflexivity | split; [| split]]]);
    try (split; [discriminate || congruence | discriminate || congruence]);
    try (split; reflexivity).
Qed.

(** C4, as stated, fails: with every available rider type selected, which
    is how the page starts, the predicate still has a rider-type clause. *)
Lemma full_selection_keeps_clause :
  rider_filter default_filters = sample_riders
  /\ where_sql default_filters
     = "ride_date BETWEEN DATE('2024-01-01') AND DATE('2024-12-31') AND member_casual IN ('casual', 'member') AND rideable_type IN ('classic_bike', 'electric_bike')"
  /\ ~ (has_rider_clause default_filters = true
        <-> rider_filter default_filters <> []
            /\ rider_filter default_filters <> sample_riders).
Proof.
  split; [reflexivity | split; [reflexivity |]].
  intros [H _]. destruct (H eq_refl) as [_ Hne]. now apply Hne.
Qed.

(** ** Query catalogue *)

Ltac find_where :=
  match goal with
  | |- context [where_sql ?fs] =>
      generalize (where_sql fs); intros w;
      vm_compute; rewrite prefix_app; reflexivity
  end.

(** The seven templates written with [{where_sql}] carry the shared
    predicate after their [WHERE]. *)
Lemma shared_predicate_in_templates (fs : FilterSpec) :
  forallb (fun q => contains q ("WHERE " ++ where_sql fs))
    [sql_kpis fs; sql_cat fs; sql_ts_daily fs; sql_ts_monthly fs; sql_mix fs;
     sql_weekday fs; sql_top_stations fs; sql_insights fs] = true.
Proof.
  cbn [forallb].
  repeat (rewrite andb_true_iff; split); try reflexivity.
  - unfold sql_kpis. find_where.
  - unfold sql_cat. find_where.
  - unfold sql_ts_daily. find_where.
  - unfold sql_ts_monthly. find_where.
  - unfold sql_mix. find_where.
  - unfold sql_weekday. find_where.
  - unfold sql_top_stations. find_where.
  - unfold sql_insights. find_where.
Qed.

(** C2 (the code departs from it): the month-over-month and trend-bounds
    templates spell out the date range themselves and never mention the
    rider-type and bike-type selections, so their text is the same for
    every selection.  With only members selected, the KPI query filters on
    [member_casual IN ('member')] and these two queries do not. *)
Theorem mom_and_trend_ignore_type_filters :
  (forall s e g r b r' b',
     sql_mom (mkFilterSpec s e r b g) = sql_mom (mkFilterSpec s e r' b' g)
     /\ sql_trend (mkFilterSpec s e r b g)
        = sql_trend (mkFilterSpec s e r' b' g))
  /\ where_sql members_only
     = "ride_date BETWEEN DATE('2024-01-01') AND DATE('2024-12-31') AND member_casual IN ('member') AND rideable_type IN ('classic_bike', 'electric_bike')"
  /\ contains (sql_kpis members_only) ("WHERE " ++ where_sql members_only)
     = true
  /\ contains (sql_mom members_only) ("WHERE " ++ where_sql members_only)
     = false
  /\ contains (sql_trend members_only) ("WHERE " ++ where_sql members_only)
     = false
  /\ contains (sql_mom members_only) "member_casual" = false
  /\ contains (sql_trend members_only) "member_casual" = false
  /\ contains (sql_mom members_only)
       "WHERE ride_date BETWEEN DATE('2024-01-01') AND DATE('2024-12-31')
  GROUP BY month" = true
  /\ contains (sql_trend members_only)
       "WHERE ride_date BETWEEN DATE('2024-01-01') AND DATE('2024-12-31')
      GROUP BY month" = true.
Proof.
  split; [intros; split; reflexivity |].
  repeat split; vm_compute; reflexivity.
Qed.

(** ** Backend failures *)

Section Failures.

Variable B : builtins.

Lemma raises_now {A C} (m : M A) (k : A -> M C) (out : list st_call) :
  raises m out -> raises (mbind m k) out.
Proof.
  intros (out' & e & H). exists out', e. unfold mbind. now rewrite H.
Qed.

Lemma raises_later {A C} (m : M A) (k : A -> M C) (out : list st_call) :
  (forall a out', raises (k a) out') -> raises (mbind m k) out.
Proof.
  intros H. unfold raises, mbind.
  destruct (m out) as [out' [a|e]]; [apply H | eauto].
Qed.

(** A view whose query fails sends at most its heading to the sink and
    lets the exception through. *)
Lemma view_kpis_failure fs be e out :
  be (sql_kpis fs) = Raise e -> view_kpis B fs be out = (out, Raise e).
Proof.
  intros H. unfold view_kpis, mbind, lift, query_bq. now rewrite H.
Qed.

Lemma view_mom_failure fs be e out :
  be (sql_mom fs) = Raise e -> view_mom B fs be out = (out, Raise e).
Proof.
  intros H. unfold view_mom, mbind, lift, query_bq. now rewrite H.
Qed.

Lemma view_cat_failure fs be e out :
  be (sql_cat fs) = Raise e ->
  view_cat B fs be out
  = ((out ++ [St_subheader "Trips by Rider Type (Member vs Casual)"])%list,
     Raise e).
Proof.
  intros H. unfold view_cat, mbind, lift, emit, query_bq. now rewrite H.
Qed.

Lemma view_ts_failure fs be e out :
  be (sql_ts fs) = Raise e -> raises (view_ts B fs be) out.
Proof.
  intros H. unfold raises, view_ts, mbind, lift, emit, query_bq.
  rewrite H. eauto.
Qed.

Lemma view_mix_failure fs be e out :
  be (sql_mix fs) = Raise e -> raises (view_mix B fs be) out.
Proof.
  intros H. unfold raises, view_mix, mbind, lift, emit, query_bq.
  rewrite H. eauto.
Qed.

Lemma view_weekday_failure fs be e out :
  be (sql_weekday fs) = Raise e ->
  view_weekday fs be out
  = ((out ++ [St_subheader "Weekday vs Weekend Split"])%list, Raise e).
Proof.
  intros H. unfold view_weekday, mbind, lift, emit, query_bq. now rewrite H.
Qed.

Lemma view_top_stations_failure fs be e out :
  be (sql_top_stations fs) = Raise e ->
  view_top_stations B fs be out
  = ((out ++ [St_subheader "Top Start Stations"])%list, Raise e).
Proof.
  intros H. unfold view_top_stations, mbind, lift, emit, query_bq.
  now rewrite H.
Qed.

Lemma trend_bullets_failure fs be e :
  60 <= days_selected fs ->
  be (sql_trend fs) = Raise e -> trend_bullets B fs be = Raise e.
Proof.
  intros Hd H. unfold trend_bullets, query_bq.
  apply Z.leb_le in Hd. now rewrite Hd, H.
Qed.

Lemma insight_bullets_failure fs be e :
  be (sql_insights fs) = Raise e
  \/ (60 <= days_selected fs /\ be (sql_trend fs) = Raise e) ->
  exists e', insight_bullets B fs be = Raise e'.
Proof.
  unfold insight_bullets, query_bq. intros [H | [Hd H]].
  - rewrite H. simpl. eauto.
  - rewrite (trend_bullets_failure fs be e Hd H).
    destruct (be (sql_insights fs)) as [df|]; simpl; eauto.
    destruct (iloc0 df) as [ins|]; simpl; eauto.
    destruct (read_insights B ins); simpl; eauto.
Qed.

Lemma view_insights_failure fs be e out :
  be (sql_insights fs) = Raise e
  \/ (60 <= days_selected fs /\ be (sql_trend fs) = Raise e) ->
  raises (view_insights B fs be) out.
Proof.
  intros H. destruct (insight_bullets_failure fs be e H) as [e' He'].
  unfold raises, view_insights, mbind, lift, emit. rewrite He'. eauto.
Qed.

End Failures.

(** The distinct-values query is not guarded either. *)
Lemma distinct_values_failure_escapes (B : builtins) (ui : sidebar)
  (be : backend) (e : exn) :
  date_gt (or_default (ui_start ui) default_start)
          (or_default (ui_end ui) default_end) = false ->
  be sql_distinct = Raise e ->
  render B ui be = (page_intro, Raise e).
Proof.
  intros Hdate H. unfold render. rewrite Hdate.
  unfold dashboard, mbind, lift, get_distinct_values, query_bq.
  now rewrite H.
Qed.

Lemma raises_eq {A} (m : M A) (out out' : list st_call) (e : exn) :
  m out = (out', Raise e) -> raises m out.
Proof. intros H. exists out', e. exact H. Qed.

(** A block that raises makes the sequence raise, wherever it stands. *)
Lemma run_blocks_raises (bs : list (M unit)) (v : M unit) :
  In v bs -> (forall out, raises v out) -> forall out, raises (run_blocks bs) out.
Proof.
  intros Hin Hv. induction bs as [|b rest IH]; [contradiction |].
  intros out. cbn [run_blocks].
  destruct Hin as [-> | Hin].
  - apply raises_now, Hv.
  - apply raises_later. intros _ out'. now apply IH.
Qed.

(** The first block that raises ends the sequence: the sink is left as
    that block left it and the blocks after it are not run. *)
Lemma run_blocks_first_failure (pre post : list (M unit)) (v : M unit)
  (out out1 out2 : list st_call) (e : exn) :
  run_blocks pre out = (out1, Ok tt) ->
  v out1 = (out2, Raise e) ->
  run_blocks (pre ++ v :: post) out = (out2, Raise e).
Proof.
  revert out. induction pre as [|b pre IH]; intros out Hpre Hv.
  - cbn in Hpre. injection Hpre as <-. cbn [app run_blocks].
    unfold mbind. now rewrite Hv.
  - cbn [app run_blocks] in *. unfold mbind in *.
    destruct (b out) as [out' [[]|e']]; [| discriminate].
    now apply IH.
Qed.

Ltac here := solve [repeat (first [left; reflexivity | right])].

(** Find, among the blocks, the view whose query is known to fail. *)
Ltac failing_block B fs be :=
  first
    [ apply (run_blocks_raises _ (view_kpis B fs be));
      [here | intros ?; eapply raises_eq; apply view_kpis_failure; eassumption]
    | apply (run_blocks_raises _ (view_mom B fs be));
      [here | intros ?; eapply raises_eq; apply view_mom_failure; eassumption]
    | apply (run_blocks_raises _ (view_cat B fs be));
      [here | intros ?; eapply raises_eq; apply view_cat_failure; eassumption]
    | apply (run_blocks_raises _ (view_ts B fs be));
      [here | intros ?; eapply view_ts_failure; eassumption]
    | apply (run_blocks_raises _ (view_mix B fs be));
      [here | intros ?; eapply view_mix_failure; eassumption]
    | apply (run_blocks_raises _ (view_weekday fs be));
      [here
      | intros ?; eapply raises_eq; apply view_weekday_failure; eassumption]
    | apply (run_blocks_raises _ (view_top_stations B fs be));
      [here
      | intros ?; eapply raises_eq; apply view_top_stations_failure;
        eassumption]
    | apply (run_blocks_raises _ (view_insights B fs be));
      [here | intros ?; eapply view_insights_failure; eauto] ].

(** C3 (as the code has it): [query_bq] has no handler around it and
    neither has any view, so a backend failure is not turned into an empty
    table.  Whenever one of the queries of a render fails, an exception
    escapes the script and the render does not complete.  When the
    top-stations query fails and the blocks before that view have
    completed, the backend's exception is the one that escapes, the sink
    holds what those blocks sent followed by the heading of the view, with
    no table and no message for it, and the insights are not rendered. *)
Theorem backend_failure_escapes (B : builtins) (ui : sidebar) (be : backend)
  (rider_types bike_types : list string) (q : string) (e : exn) :
  date_gt (or_default (ui_start ui) default_start)
          (or_default (ui_end ui) default_end) = false ->
  get_distinct_values be = Ok (rider_types, bike_types) ->
  In q (catalog (read_filters ui rider_types bike_types)) ->
  be q = Raise e ->
  (exists out e', render B ui be = (out, Raise e'))
  /\ (forall out1,
        q = sql_top_stations (read_filters ui rider_types bike_types) ->
        run_blocks
          (firstn 10 (blocks B (read_filters ui rider_types bike_types) be))
          page_intro = (out1, Ok tt) ->
        render B ui be
        = ((out1 ++ [St_subheader "Top Start Stations"])%list, Raise e)).
Proof.
  intros Hdate Hdistinct Hin Hq.
  set (fs := read_filters ui rider_types bike_types) in *.
  assert (E : render B ui be
              = (run_blocks (blocks B fs be) ;;; mret Completed) page_intro).
  { unfold render. rewrite Hdate.
    unfold dashboard, mbind at 1, lift at 1. now rewrite Hdistinct. }
  rewrite E. clear E. split.
  - change (raises (run_blocks (blocks B fs be) ;;; mret Completed)
              page_intro).
    apply raises_now.
    unfold catalog in Hin. apply in_app_or in Hin as [Hin | Hin].
    + cbn [In] in Hin.
      destruct Hin
        as [<- | [<- | [<- | [<- | [<- | [<- | [<- | [<- | []]]]]]]]];
        failing_block B fs be.
    + destruct (Z.leb_spec 60 (days_selected fs)) as [Hd | Hd];
        [| contradiction].
      destruct Hin as [<- | []]. failing_block B fs be.
  - intros out1 -> Hpre.
    pose proof (run_blocks_first_failure
                  (firstn 10 (blocks B fs be))
                  [emit St_divider; view_insights B fs be]
                  (view_top_stations B fs be) page_intro out1 _ e Hpre
                  (view_top_stations_failure B fs be e out1 Hq)) as H.
    change (firstn 10 (blocks B fs be)
            ++ view_top_stations B fs be
               :: [emit St_divider; view_insights B fs be])%list
      with (blocks B fs be) in H.
    unfold mbind at 1. now rewrite H.
Qed.

Lemma backend_failure_escapes_witness :
  date_gt (or_default (ui_start untouched) default_start)
          (or_default (ui_end untouched) default_end) = false
  /\ get_distinct_values top_stations_down = Ok (sample_riders, sample_bikes)
  /\ In (sql_top_stations default_filters)
        (catalog (read_filters untouched sample_riders sample_bikes))
  /\ top_stations_down (sql_top_stations default_filters) = Raise BackendError
  /\ (exists out e',
        render no_parsing untouched top_stations_down = (out, Raise e'))
  /\ render no_parsing untouched top_stations_down
     = ((fst (run_blocks (firstn 10 (blocks no_parsing default_filters
                                       top_stations_down)) page_intro)
         ++ [St_subheader "Top Start Stations"])%list,
        Raise BackendError).
Proof.
  assert (H1 : date_gt (or_default (ui_start untouched) default_start)
                 (or_default (ui_end untouched) default_end) = false)
    by reflexivity.
  assert (H2 : get_distinct_values top_stations_down
               = Ok (sample_riders, sample_bikes))
    by (vm_compute; reflexivity).
  assert (H3 : In (sql_top_stations default_filters)
                 (catalog (read_filters untouched sample_riders sample_bikes)))
    by (do 6 right; left; reflexivity).
  assert (H4 : top_stations_down (sql_top_stations default_filters)
               = Raise BackendError)
    by (vm_compute; reflexivity).
  destruct (backend_failure_escapes no_parsing untouched top_stations_down
              sample_riders sample_bikes (sql_top_stations default_filters)
              BackendError H1 H2 H3 H4) as [Hescapes Hsink].
  repeat (split; [assumption |]).
  apply Hsink; [reflexivity | vm_compute; reflexivity].
Defined.

(** C3, as stated, fails: with the backend failing for the top-stations
    query only, the render that otherwise completes ends in the backend's
    exception; the sink gets the heading of the failed view as its last
    call, no table for it, and nothing of the insights. *)
Lemma top_stations_failure_is_not_contained :
  snd (render no_parsing untouched sample_backend) = Ok Completed
  /\ (forall q, In q (catalog default_filters) ->
        q <> sql_top_stations default_filters ->
        top_stations_down q = sample_backend q)
  /\ snd (render no_parsing untouched top_stations_down) = Raise BackendError
  /\ last (fst (render no_parsing untouched top_stations_down)) St_divider
     = St_subheader "Top Start Stations"
  /\ ~ In (St_subheader "Insights")
          (fst (render no_parsing untouched top_stations_down)).
Proof.
  split; [vm_compute; reflexivity |].
  split.
  { intros q _ Hq. unfold top_stations_down, failing.
    destruct (String.eqb_spec q (sql_top_stations default_filters));
      [contradiction | reflexivity]. }
  split; [vm_compute; reflexivity |].
  split; [vm_compute; reflexivity |].
  vm_compute. intuition discriminate.
Qed.

(** C5 (the code departs from it): the five chart and table views test
    [df.empty] and show a "no data" message, but the KPI row and the
    insights take [.iloc[0]] unguarded and raise [IndexError] on a table
    without rows; and the KPI row passes its shares to [float], which
    raises [TypeError] on the NULL shares of a range without trips, where
    the insight code tests [is not None] first.  On such a range the render
    stops in the KPI row after two metrics; were the NULL shares delivered
    as NaN, it would pass the KPI row and stop at the insights. *)
Theorem kpi_and_insights_raise_without_data :
  render no_parsing untouched no_trips_backend
  = ((page_intro ++ [St_metric "Total trips" "0" None;
                     St_metric "Avg duration" "None" None])%list,
     Raise TypeError)
  /\ view_insights no_parsing default_filters no_trips_backend []
     = ([St_subheader "Insights"], Raise IndexError)
  /\ snd (render no_parsing untouched no_trips_nan_backend)
     = Raise IndexError
  /\ last (fst (render no_parsing untouched no_trips_nan_backend)) St_divider
     = St_subheader "Insights"
  /\ (forall B fs cols out,
        view_kpis B fs (fun _ => frame cols []) out = (out, Raise IndexError))
  /\ (forall B fs cols out,
        view_insights B fs (fun _ => frame cols []) out
        = ((out ++ [St_subheader "Insights"])%list, Raise IndexError))
  /\ (forall B fs cols out,
        view_cat B fs (fun _ => frame cols []) out
        = ((out ++ [St_subheader "Trips by Rider Type (Member vs Casual)";
                    St_info "No data for the selected filters."])%list,
           Ok tt))
  /\ (forall B fs cols out,
        view_top_stations B fs (fun _ => frame cols []) out
        = ((out ++ [St_subheader "Top Start Stations";
                    St_info "No station data for the selected filters."])%list,
           Ok tt)).
Proof.
  split; [vm_compute; reflexivity |].
  split; [vm_compute; reflexivity |].
  split; [vm_compute; reflexivity |].
  split; [vm_compute; reflexivity |].
  split; [reflexivity |].
  split; [reflexivity |].
  split; intros B fs cols out.
  - unfold view_cat, mbind, emit, lift, query_bq, frame. cbn.
    now rewrite <- app_assoc.
  - unfold view_top_stations, mbind, emit, lift, query_bq, frame. cbn.
    now rewrite <- app_assoc.
Qed.

(** ** Insight bullets *)

(** The text sent to [st.info] for 1000 trips, 600 of them by members,
    and 900 seconds on average. *)
Example sample_insight_text :
  String.concat newline
    (map (fun b => "• " ++ bullet_text no_parsing b)
       [TotalTrips 1000; AvgDuration (900 / 60)%float;
        RiderMix ((600 / 1000) * 100)%float;
        WeekendTiming ((250 / 1000) * 100)%float;
        TopBike (VStr "electric_bike") 700; Trend Increased 70])
  = "• Total trips in selected period: **1,000**.
• Average trip duration: **15.0 minutes**.
• Rider mix: **60.0% members** (and 40.0% casual).
• Trip timing: **25.0%** of trips occur on weekends.
• Most used bike type: **electric_bike** with **700** trips.
• Overall trend: trips **increased** from first to last month (Δ 70).".
Proof. vm_compute. reflexivity. Qed.

Section Insights.

Variable B : builtins.

Lemma direction_of_spec (d : Z) :
  (direction_of d = Increased <-> 0 < d)
  /\ (direction_of d = Decreased <-> d < 0)
  /\ (direction_of d = StayedFlat <-> d = 0).
Proof.
  unfold direction_of.
  destruct (Z.ltb_spec 0 d); [| destruct (Z.ltb_spec d 0)];
    repeat split; intros; try discriminate; try reflexivity; lia.
Qed.

Lemma trend_bullets_short_range fs be :
  days_selected fs < 60 -> trend_bullets B fs be = Ok [].
Proof.
  intros H. unfold trend_bullets.
  destruct (Z.leb_spec 60 (days_selected fs)); [lia | reflexivity].
Qed.

Lemma trend_bullets_long_range fs be cols r rest first last :
  60 <= days_selected fs ->
  be (sql_trend fs) = Ok (mkDF cols (r :: rest)) ->
  getitem (combine cols r) "first_trips" = Ok (count_cell first) ->
  getitem (combine cols r) "last_trips" = Ok (count_cell last) ->
  trend_bullets B fs be
  = Ok match first, last with
       | Some f, Some l => [Trend (direction_of (l - f)) (l - f)]
       | _, _ => []
       end.
Proof.
  intros Hd Hq Hf Hl. unfold trend_bullets, query_bq.
  apply Z.leb_le in Hd. rewrite Hd, Hq. cbn [rbind iloc0 rows columns].
  rewrite Hf. cbn [rbind].
  destruct first as [f|]; [| reflexivity]. cbn [count_cell is_none].
  rewrite Hl. cbn [rbind].
  destruct last as [l|]; reflexivity.
Qed.


End Insights.

(** C6: the trend bullet is emitted exactly when the selected range is at
    least 60 days long and the first-month and last-month counts are both
    defined.  Below 60 days the trend query is not even sent, so a range
    of 59 days never has the bullet.  From 60 days on, with the backend
    returning the two counts, the bullet appears exactly when both are not
    NULL, and its direction is "increased", "decreased" or "stayed flat"
    as last minus first is positive, negative or zero. *)
Theorem trend_bullet_gate (B : builtins) (fs : FilterSpec) (be : backend) :
  (days_selected fs < 60 -> trend_bullets B fs be = Ok [])
  /\ (forall cols r rest first last,
        60 <= days_selected fs ->
        be (sql_trend fs) = Ok (mkDF cols (r :: rest)) ->
        getitem (combine cols r) "first_trips" = Ok (count_cell first) ->
        getitem (combine cols r) "last_trips" = Ok (count_cell last) ->
        exists tr,
          trend_bullets B fs be = Ok tr
          /\ (tr <> [] <-> first <> None /\ last <> None)
          /\ (forall f l, first = Some f -> last = Some l ->
                tr = [Trend (direction_of (l - f)) (l - f)]))
  /\ (forall d,
        (direction_of d = Increased <-> 0 < d)
        /\ (direction_of d = Decreased <-> d < 0)
        /\ (direction_of d = StayedFlat <-> d = 0))
  /\ direction_text Increased = "increased"
  /\ direction_text Decreased = "decreased"
  /\ direction_text StayedFlat = "stayed flat".
Proof.
  split; [apply trend_bullets_short_range |].
  split; [| split; [apply direction_of_spec | repeat split]].
  intros cols r rest first last Hd Hq Hf Hl.
  eexists. split;
    [apply (trend_bullets_long_range B fs be cols r rest first last);
     assumption |].
  destruct first as [f|], last as [l|];
    (split; [split; [intros H | intros [H1 H2]] | intros f0 l0 E1 E2]);
    solve [congruence | split; congruence].
Qed.

Lemma trend_bullet_gate_witness :
  (days_selected fifty_nine_days = 59
   /\ trend_bullets no_parsing fifty_nine_days
        (answer (sample_answers fifty_nine_days)) = Ok [])
  /\ (days_selected sixty_days = 60
      /\ exists tr,
           trend_bullets no_parsing sixty_days
             (answer (sample_answers sixty_days)) = Ok tr
           /\ (tr <> [] <-> Some 80 <> None /\ Some 150 <> None)
           /\ (forall f l, Some 80 = Some f -> Some 150 = Some l ->
                 tr = [Trend (direction_of (l - f)) (l - f)])).
Proof.
  split; (split; [reflexivity |]).
  - apply (proj1 (trend_bullet_gate no_parsing fifty_nine_days
                    (answer (sample_answers fifty_nine_days)))).
    vm_compute. reflexivity.
  - apply (proj1 (proj2 (trend_bullet_gate no_parsing sixty_days
                           (answer (sample_answers sixty_days))))
             ["first_trips"; "last_trips"] [VInt 80; VInt 150] []
             (Some 80) (Some 150)).
    + vm_compute. discriminate.
    + vm_compute. reflexivity.
    + reflexivity.
    + reflexivity.
Defined.

Section BulletOrder.

Variable B : builtins.






End BulletOrder.



(** * Further properties of the script *)

(** ** The date check (lines 64-68) *)

Lemma days_before_year_succ (y : Z) :
  days_before_year (y + 1)
  = days_before_year y + (if is_leap y then 366 else 365).
Proof.
  unfold days_before_year, is_leap.
  replace (y + 1 - 1) with y by lia.
  destruct (Z.eqb_spec (y mod 4) 0), (Z.eqb_spec (y mod 100) 0),
    (Z.eqb_spec (y mod 400) 0); cbn [andb orb negb];
    Z.to_euclidean_division_equations; lia.
Qed.

Lemma days_before_year_mono (y1 y2 : Z) :
  y1 <= y2 -> days_before_year y1 <= days_before_year y2.
Proof.
  unfold days_before_year. intros H.
  Z.to_euclidean_division_equations. lia.
Qed.

Lemma days_before_month_cases (y m : Z) :
  1 <= m <= 12 ->
  days_before_month y m
  = match m with
    | 1 => 0 | 2 => 31 | 3 => 59 | 4 => 90 | 5 => 120 | 6 => 151 | 7 => 181
    | 8 => 212 | 9 => 243 | 10 => 273 | 11 => 304 | _ => 334
    end
    + (if (is_leap y && (2 <? m))%bool then 1 else 0).
Proof.
  intros H.
  assert (C : m = 1 \/ m = 2 \/ m = 3 \/ m = 4 \/ m = 5 \/ m = 6 \/ m = 7
              \/ m = 8 \/ m = 9 \/ m = 10 \/ m = 11 \/ m = 12) by lia.
  unfold days_before_month, days_in_month.
  destruct (is_leap y);
    repeat (destruct C as [-> | C]; [reflexivity |]); subst; reflexivity.
Qed.

Lemma valid_date_bounds (d : date) :
  valid_date d = true ->
  1 <= year d <= 9999 /\ 1 <= month d <= 12
  /\ 1 <= day d <= days_in_month (year d) (month d).
Proof.
  unfold valid_date. rewrite !andb_true_iff, !Z.leb_le. tauto.
Qed.

Ltac month_cases m :=
  let C := fresh "C" in
  assert (C : m = 1 \/ m = 2 \/ m = 3 \/ m = 4 \/ m = 5 \/ m = 6 \/ m = 7
              \/ m = 8 \/ m = 9 \/ m = 10 \/ m = 11 \/ m = 12) by lia;
  repeat (destruct C as [C | C]); subst m.

Opaque Z.add.

Lemma day_of_year_bounds (d : date) :
  valid_date d = true ->
  1 <= day_of_year d <= (if is_leap (year d) then 366 else 365).
Proof.
  intros H. apply valid_date_bounds in H as (_ & Hm & Hd).
  unfold day_of_year. destruct d as [y m dd]; cbn [year month day] in *.
  rewrite days_before_month_cases by assumption.
  unfold days_in_month in Hd.
  month_cases m; destruct (is_leap y); cbn in *; lia.
Qed.

Lemma day_of_year_order (y m1 d1 m2 d2 : Z) :
  valid_date (mkdate y m1 d1) = true ->
  valid_date (mkdate y m2 d2) = true ->
  (m2 < m1 \/ (m1 = m2 /\ d2 < d1))
  <-> day_of_year (mkdate y m2 d2) < day_of_year (mkdate y m1 d1).
Proof.
  intros H1 H2.
  apply valid_date_bounds in H1 as (_ & Hm1 & Hd1).
  apply valid_date_bounds in H2 as (_ & Hm2 & Hd2).
  unfold day_of_year; cbn [year month day] in *.
  rewrite !days_before_month_cases by assumption.
  unfold days_in_month in Hd1, Hd2.
  month_cases m1; month_cases m2; destruct (is_leap y); cbn in *; lia.
Qed.

Transparent Z.add.

Lemma toordinal_order (a b : date) :
  valid_date a = true -> valid_date b = true ->
  (date_gt a b = true <-> toordinal b < toordinal a).
Proof.
  intros Ha Hb.
  pose proof (day_of_year_bounds a Ha) as Da.
  pose proof (day_of_year_bounds b Hb) as Db.
  destruct a as [ya ma da], b as [yb mb db].
  unfold date_gt, toordinal. unfold day_of_year in *.
  cbn [year month day] in *.
  rewrite orb_true_iff, !andb_true_iff, orb_true_iff, andb_true_iff,
    !Z.ltb_lt, !Z.eqb_eq.
  destruct (Z.lt_trichotomy ya yb) as [Hy | [Hy | Hy]].
  - pose proof (days_before_year_succ ya) as S.
    pose proof (days_before_year_mono (ya + 1) yb ltac:(lia)) as Mo.
    destruct (is_leap ya); split; intros; lia.
  - subst yb.
    pose proof (day_of_year_order ya ma da mb db Ha Hb) as O.
    unfold day_of_year in O; cbn [year month day] in O.
    split; intros; [| right; split; [reflexivity |]]; lia.
  - pose proof (days_before_year_succ yb) as S.
    pose proof (days_before_year_mono (yb + 1) ya ltac:(lia)) as Mo.
    destruct (is_leap yb); split; intros; lia.
Qed.

(** A render that gets past the date check ends in [Completed] or in an
    exception, never in [Stopped]. *)
Lemma dashboard_never_stops (B : builtins) (ui : sidebar) (be : backend)
  (out : list st_call) :
  snd (dashboard B ui be out) <> Ok Stopped.
Proof.
  unfold dashboard, mbind, mret.
  destruct (lift (get_distinct_values be) out) as [out1 [u|e]];
    [| discriminate].
  destruct (run_blocks _ out1) as [out2 [[]|e]]; discriminate.
Qed.

(** X1: for calendar dates, the date check stops the render exactly when
    the end date precedes the start date, that is when the range length
    is negative.  A stopped render has sent the error message and nothing
    else after the page heading, whatever the backend; any other render
    goes on to the dashboard with a range of zero days or more. *)
Theorem date_check_guards_range (B : builtins) (ui : sidebar) (be : backend) :
  valid_date (or_default (ui_start ui) default_start) = true ->
  valid_date (or_default (ui_end ui) default_end) = true ->
  (snd (render B ui be) = Ok Stopped
   <-> days_between (or_default (ui_start ui) default_start)
         (or_default (ui_end ui) default_end) < 0)
  /\ (days_between (or_default (ui_start ui) default_start)
         (or_default (ui_end ui) default_end) < 0 ->
      render B ui be = ((page_intro ++ [range_error])%list, Ok Stopped))
  /\ (0 <= days_between (or_default (ui_start ui) default_start)
              (or_default (ui_end ui) default_end) ->
      render B ui be = dashboard B ui be page_intro).
Proof.
  intros Hs He.
  pose proof (toordinal_order _ _ Hs He) as Ho.
  unfold days_between, render.
  destruct (date_gt _ _) eqn:Hgt.
  - assert (Hlt : toordinal (or_default (ui_end ui) default_end)
                  < toordinal (or_default (ui_start ui) default_start))
      by now apply Ho.
    repeat split; intros; (reflexivity || lia).
  - assert (Hge : ~ toordinal (or_default (ui_end ui) default_end)
                    < toordinal (or_default (ui_start ui) default_start)).
    { intros H. apply Ho in H. discriminate. }
    split; [split; intros H | split; intros H]; try lia; try reflexivity.
    now apply dashboard_never_stops in H.
Qed.

Lemma date_check_guards_range_witness :
  valid_date (mkdate 2024 3 1) = true
  /\ valid_date (mkdate 2024 1 1) = true
  /\ days_between (mkdate 2024 3 1) (mkdate 2024 1 1) = -60
  /\ render no_parsing
       (mkSidebar (Some (mkdate 2024 3 1)) (Some (mkdate 2024 1 1))
          None None None) sample_backend
     = ((page_intro ++ [range_error])%list, Ok Stopped).
Proof.
  split; [reflexivity | split; [reflexivity | split; [reflexivity |]]].
  apply (proj1 (proj2 (date_check_guards_range no_parsing
                         (mkSidebar (Some (mkdate 2024 3 1))
                            (Some (mkdate 2024 1 1)) None None None)
                         sample_backend eq_refl eq_refl))).
  vm_compute. reflexivity.
Defined.

(** ** The date range in every query (line 100) *)

Lemma prefix_app_both (a x y : string) : prefix (a ++ x) (a ++ y) = prefix x y.
Proof.
  induction a as [|c a IH]; [reflexivity |].
  cbn [append]. destruct y; cbn; destruct (ascii_dec c c); try congruence;
  exact IH.
Qed.

Lemma where_sql_starts_with_dates (fs : FilterSpec) :
  exists rest, where_sql fs = date_clause fs ++ rest.
Proof.
  unfold where_sql, where_clauses.
  destruct (truthy (rider_filter fs)), (truthy (bike_filter fs));
    cbn [app String.concat]; eexists; reflexivity.
Qed.

Ltac find_dates_in_where fs :=
  destruct (where_sql_starts_with_dates fs) as [rest ->];
  rewrite !append_assoc;
  generalize (date_clause fs); intros d;
  vm_compute; rewrite prefix_app; reflexivity.

Ltac find_dates_inline fs :=
  unfold date_clause;
  generalize (isoformat (start_date fs)), (isoformat (end_date fs));
  intros a b; vm_compute;
  rewrite prefix_app_both; vm_compute;
  rewrite prefix_app_both; reflexivity.

(** X2: the date range is part of every query that reads trips.  Each of
    the ten templates built from the filters has the text
    [WHERE ride_date BETWEEN DATE('start') AND DATE('end')], with the
    selected dates in ISO form, whatever the rider and bike selections
    are; only the distinct-values query has no [WHERE] at all. *)
Theorem date_range_in_every_query (fs : FilterSpec) :
  forallb (fun q => contains q ("WHERE " ++ date_clause fs))
    [sql_kpis fs; sql_mom fs; sql_cat fs; sql_ts_daily fs; sql_ts_monthly fs;
     sql_mix fs; sql_weekday fs; sql_top_stations fs; sql_insights fs;
     sql_trend fs] = true
  /\ contains (sql_ts fs) ("WHERE " ++ date_clause fs) = true
  /\ date_clause fs
     = "ride_date BETWEEN DATE('" ++ isoformat (start_date fs)
       ++ "') AND DATE('" ++ isoformat (end_date fs) ++ "')"
  /\ String.length (date_clause fs) = 59%nat
  /\ contains sql_distinct "WHERE" = false.
Proof.
  assert (Hd : contains (sql_ts_daily fs) ("WHERE " ++ date_clause fs) = true)
    by (unfold sql_ts_daily; find_dates_in_where fs).
  assert (Hm : contains (sql_ts_monthly fs) ("WHERE " ++ date_clause fs)
               = true)
    by (unfold sql_ts_monthly; find_dates_in_where fs).
  split; [| split; [| split; [reflexivity | split; [| reflexivity]]]].
  - cbn [forallb]. rewrite Hd, Hm.
    repeat (rewrite andb_true_iff; split); try reflexivity.
    + unfold sql_kpis. find_dates_in_where fs.
    + unfold sql_mom. find_dates_inline fs.
    + unfold sql_cat. find_dates_in_where fs.
    + unfold sql_mix. find_dates_in_where fs.
    + unfold sql_weekday. find_dates_in_where fs.
    + unfold sql_top_stations. find_dates_in_where fs.
    + unfold sql_insights. find_dates_in_where fs.
    + unfold sql_trend. find_dates_inline fs.
  - unfold sql_ts. destruct (grain fs); assumption.
  - unfold date_clause, isoformat, pad4, pad2. reflexivity.
Qed.

(** ** The predicate text as a key (lines 15-17, 100-111) *)










(** Without the condition on quotes the text is not a key: one selected
    value with quotes and two plain values give the same predicate. *)
Lemma quoted_value_collides :
  where_sql (mkFilterSpec default_start default_end ["a', 'b"] [] Daily)
  = where_sql (mkFilterSpec default_start default_end ["a"; "b"] [] Daily).
Proof. reflexivity. Qed.

(** ** The filter options (lines 73-84) *)

Lemma insert_sorted_perm (x : string) (xs : list string) :
  Permutation (x :: xs) (insert_sorted x xs).
Proof.
  induction xs as [|y xs IH]; cbn [insert_sorted]; [reflexivity |].
  destruct (String.leb x y); [reflexivity |].
  rewrite perm_swap. now constructor.
Qed.

Lemma insert_sorted_hd (x a : string) (xs : list string) :
  str_le a x -> HdRel str_le a xs -> HdRel str_le a (insert_sorted x xs).
Proof.
  intros Hax H. destruct xs as [|y xs]; cbn [insert_sorted].
  - now constructor.
  - destruct (String.leb x y); constructor; [assumption |].
    now inversion H.
Qed.

Lemma insert_sorted_sorted (x : string) (xs : list string) :
  Sorted str_le xs -> Sorted str_le (insert_sorted x xs).
Proof.
  induction 1 as [|y xs Hs IH Hhd]; cbn [insert_sorted].
  - repeat constructor.
  - destruct (String.leb x y) eqn:E.
    + constructor; [now constructor | now constructor].
    + constructor; [exact IH |].
      apply insert_sorted_hd; [| exact Hhd].
      destruct (String.leb_total x y) as [H | H]; [congruence | exact H].
Qed.

Lemma sorted_perm (xs : list string) : Permutation xs (sorted xs).
Proof.
  unfold sorted. induction xs as [|x xs IH]; cbn [fold_right]; [constructor |].
  rewrite <- insert_sorted_perm. now constructor.
Qed.

Lemma sorted_sorted (xs : list string) : Sorted str_le (sorted xs).
Proof.
  unfold sorted. induction xs as [|x xs IH]; cbn [fold_right];
    [constructor | now apply insert_sorted_sorted].
Qed.

Lemma getitem_has_column (cols : list string) (r : list pyval) (k : string)
  (v : pyval) :
  getitem (combine cols r) k = Ok v -> existsb (String.eqb k) cols = true.
Proof.
  revert r. induction cols as [|c cols IH]; intros [|x r]; cbn;
    try discriminate.
  rewrite (String.eqb_sym k c).
  destruct (String.eqb c k); [reflexivity |]. apply IH.
Qed.

(** X4: the options offered by the two multiselects are the distinct
    values the backend returned, each list in ascending order.  When the
    distinct-values query answers with a row holding the two arrays,
    [get_distinct_values] returns a sorted rearrangement of each array:
    nothing is dropped, added or merged. *)
Theorem distinct_values_sorted (be : backend) (cols : list string)
  (r : list pyval) (rest : list (list pyval)) (riders bikes : list string) :
  be sql_distinct = Ok (mkDF cols (r :: rest)) ->
  getitem (combine cols r) "rider_types" = Ok (VArray riders) ->
  getitem (combine cols r) "bike_types" = Ok (VArray bikes) ->
  get_distinct_values be = Ok (sorted riders, sorted bikes)
  /\ Permutation riders (sorted riders) /\ Sorted str_le (sorted riders)
  /\ Permutation bikes (sorted bikes) /\ Sorted str_le (sorted bikes).
Proof.
  intros Hq Hr Hb.
  split; [| auto using sorted_perm, sorted_sorted].
  unfold get_distinct_values, query_bq, has_column, loc0.
  rewrite Hq. cbn [rbind rows columns].
  rewrite (getitem_has_column _ _ _ _ Hr), (getitem_has_column _ _ _ _ Hb).
  rewrite Hr, Hb. reflexivity.
Qed.

Lemma distinct_values_sorted_witness :
  get_distinct_values sample_backend = Ok (sample_riders, sample_bikes)
  /\ Permutation ["member"; "casual"] sample_riders
  /\ Sorted str_le sample_riders.
Proof.
  destruct (distinct_values_sorted sample_backend
              ["rider_types"; "bike_types"]
              [VArray ["member"; "casual"];
               VArray ["electric_bike"; "classic_bike"]] []
              ["member"; "casual"] ["electric_bike"; "classic_bike"]
              eq_refl eq_refl eq_refl) as (H & Hp & Hs & _).
  repeat split; assumption.
Defined.

(** X5: what [get_distinct_values] does with other answers.  A backend
    failure passes through; a table that lacks a column gives that
    multiselect no options instead of an error; a table that has the
    column but no row raises [KeyError]; and a NULL in place of the array,
    as an empty source table gives, raises [TypeError]. *)
Theorem distinct_values_edges (be : backend) :
  (forall e, be sql_distinct = Raise e -> get_distinct_values be = Raise e)
  /\ (forall df,
        be sql_distinct = Ok df ->
        has_column "rider_types" df = false ->
        has_column "bike_types" df = false ->
        get_distinct_values be = Ok ([], []))
  /\ (forall cols,
        be sql_distinct = Ok (mkDF cols []) ->
        has_column "rider_types" (mkDF cols []) = true ->
        get_distinct_values be = Raise KeyError)
  /\ (forall cols r rest,
        be sql_distinct = Ok (mkDF cols (r :: rest)) ->
        getitem (combine cols r) "rider_types" = Ok VNone ->
        get_distinct_values be = Raise TypeError).
Proof.
  unfold get_distinct_values, query_bq.
  split; [| split; [| split]].
  - intros e ->. reflexivity.
  - intros df Hq H1 H2. rewrite Hq. cbn [rbind]. now rewrite H1, H2.
  - intros cols Hq H1. rewrite Hq. cbn [rbind]. now rewrite H1.
  - intros cols r rest Hq Hr. rewrite Hq. cbn [rbind].
    unfold has_column, loc0. cbn [rows columns].
    rewrite (getitem_has_column _ _ _ _ Hr), Hr. reflexivity.
Qed.

Lemma distinct_values_edges_witness :
  get_distinct_values (fun _ => Raise BackendError) = Raise BackendError
  /\ get_distinct_values (fun _ => frame ["n"] [[VInt 1]]) = Ok ([], [])
  /\ get_distinct_values (fun _ => frame ["rider_types"; "bike_types"] [])
     = Raise KeyError
  /\ get_distinct_values
       (fun _ => frame ["rider_types"; "bike_types"] [[VNone; VNone]])
     = Raise TypeError.
Proof.
  split; [| split; [| split]].
  - apply (proj1 (distinct_values_edges (fun _ => Raise BackendError))).
    reflexivity.
  - apply (proj1 (proj2 (distinct_values_edges
                           (fun _ => frame ["n"] [[VInt 1]])))
             (mkDF ["n"] [[VInt 1]])); reflexivity.
  - apply (proj1 (proj2 (proj2 (distinct_values_edges
             (fun _ => frame ["rider_types"; "bike_types"] []))))
             ["rider_types"; "bike_types"]); reflexivity.
  - apply (proj2 (proj2 (proj2 (distinct_values_edges
             (fun _ => frame ["rider_types"; "bike_types"]
                         [[VNone; VNone]]))))
             ["rider_types"; "bike_types"] [VNone; VNone] []); reflexivity.
Defined.

(** ** Month over month (lines 163-177) *)




(** ** The KPI row (lines 131-140) *)



(** ** Charts and tables (lines 184-331) *)

Section Tables.

Variable B : builtins.









End Tables.

(** X8: an empty result is shown as a message.  When its query returns a
    table without rows (or without columns), each of the five chart and
    table views sends its heading and one info message, no table and no
    chart, and completes. *)
Theorem empty_result_shows_message (B : builtins) (fs : FilterSpec)
  (be : backend) (out : list st_call) (df : DataFrame) :
  df_empty df = true ->
  (be (sql_cat fs) = Ok df ->
   view_cat B fs be out
   = ((out ++ [St_subheader "Trips by Rider Type (Member vs Casual)";
               no_data])%list, Ok tt))
  /\ (be (sql_ts fs) = Ok df ->
      view_ts B fs be out
      = ((out ++ [St_subheader match grain fs with
                               | Daily => "Trips Over Time (Daily)"
                               | Monthly => "Trips Over Time (Monthly)"
                               end;
                  no_data])%list, Ok tt))
  /\ (be (sql_mix fs) = Ok df ->
      view_mix B fs be out
      = ((out ++ [St_subheader "Bike Type Usage Trends Over Time";
                  St_caption
                    "Monthly trip counts split by `rideable_type` (e.g., classic vs electric).";
                  no_data])%list, Ok tt))
  /\ (be (sql_weekday fs) = Ok df ->
      view_weekday fs be out
      = ((out ++ [St_subheader "Weekday vs Weekend Split"; no_data])%list,
         Ok tt))
  /\ (be (sql_top_stations fs) = Ok df ->
      view_top_stations B fs be out
      = ((out ++ [St_subheader "Top Start Stations";
                  St_info "No station data for the selected filters."])%list,
         Ok tt)).
Proof.
  intros He.
  repeat split; intros Hq;
    unfold view_cat, view_ts, view_mix, view_weekday, view_top_stations,
      mbind, lift, emit, query_bq;
    rewrite Hq, He; rewrite <- !app_assoc; reflexivity.
Qed.

Lemma empty_result_shows_message_witness :
  view_top_stations no_parsing default_filters no_trips_backend []
  = ([St_subheader "Top Start Stations";
      St_info "No station data for the selected filters."], Ok tt).
Proof.
  apply (proj2 (proj2 (proj2 (proj2
           (empty_result_shows_message no_parsing default_filters
              no_trips_backend [] (mkDF [] []) eq_refl)))));
    reflexivity.
Defined.





(** ** Formatting (lines 19-23) *)











(** ** The sink only grows *)







